(** * IAM user lifecycle scripts: compliance audit and provisioning

    A shallow embedding of [scripts/python/compliance_audit.py] and
    [scripts/python/iam_provisioner.py], followed by the properties of the
    report aggregator, the rule evaluator, request validation, password
    generation, group assignment, the retry wrapper and the provisioning
    orchestrator.

    Conventions of the embedding:
    - a Python [str] is a [string] holding its UTF-8 encoding, so that
      [len] counts code points and not bytes; a Python [int] is a [Z] or,
      for lengths and counters, a [nat]; a Python [float] is a primitive
      [float] (IEEE 754 binary64, as in CPython);
    - an aware [datetime] is the number of microseconds since the epoch, and
      the wall clock is a sequence of readings: the k-th call of
      [datetime.now] returns the k-th reading;
    - a dict with optional keys is a record with [option] fields;
    - the logger is observability only and is left out of the state. *)

From Stdlib Require Import ZArith List String Ascii Bool Lia.
From Stdlib Require Import Floats Uint63 QArith DecimalString.
Import ListNotations.
Close Scope Q_scope.
Open Scope Z_scope.
Open Scope string_scope.

(** ** Python built-ins used by both scripts *)

Module Py.

(** [str(n)] for an [int]. *)
Definition str_of_Z (z : Z) : string := NilZero.string_of_int (Z.to_int z).

Definition str_of_nat (n : nat) : string := str_of_Z (Z.of_nat n).

(** Truth value of a [str]: the empty string is falsy. *)
Definition truthy (s : string) : bool :=
  match s with
  | EmptyString => false
  | String _ _ => true
  end.

(** A byte of the form 10xxxxxx continues a code point begun earlier. *)
Definition is_continuation (c : ascii) : bool :=
  match c with
  | Ascii _ _ _ _ _ _ b6 b7 => b7 && negb b6
  end.

(** [len(s)] for a [str]: the number of code points, that is, of bytes
    that begin one. *)
Fixpoint len (s : string) : nat :=
  match s with
  | EmptyString => 0
  | String c rest => (if is_continuation c then 0 else 1) + len rest
  end.

(** [all(xs)] for a list of truth values. *)
Definition all (xs : list bool) : bool := forallb (fun b => b) xs.

(** [needle in hay] for two strings: substring search. *)
Fixpoint str_in (needle hay : string) : bool :=
  prefix needle hay
  || match hay with
     | EmptyString => false
     | String _ rest => str_in needle rest
     end.

(** [any(p(c) for c in s)]. *)
Fixpoint any (p : ascii -> bool) (s : string) : bool :=
  match s with
  | EmptyString => false
  | String c rest => p c || any p rest
  end.

(** [x in xs] for a list of strings. *)
Definition str_mem (x : string) (xs : list string) : bool :=
  existsb (String.eqb x) xs.

(** [float(n)] for a list length or counter.  Exact below 2^53; the
    conversion goes through a 63-bit integer, which no list length
    reaches. *)
Definition float_of_nat (n : nat) : float :=
  PrimFloat.of_uint63 (Uint63.of_Z (Z.of_nat n)).

(** [a / b] for two non-negative [int]s: true division, correctly rounded. *)
Definition truediv (a b : nat) : float :=
  PrimFloat.div (float_of_nat a) (float_of_nat b).

(** [d.get(k, default)] on a dict given by its items. *)
Fixpoint dict_get {V : Type} (d : list (string * V)) (k : string) : option V :=
  match d with
  | [] => None
  | (k', v) :: rest => if String.eqb k k' then Some v else dict_get rest k
  end.

Definition get_or {V : Type} (o : option V) (default : V) : V :=
  match o with
  | Some v => v
  | None => default
  end.

End Py.

(** ** compliance_audit.py *)

Module Audit.

(** *** Configuration *)

Definition MAX_PASSWORD_AGE_DAYS : Z := 90.
Definition MAX_ACCESS_KEY_AGE_DAYS : Z := 90.
Definition MAX_UNUSED_DAYS : Z := 45.
Definition REQUIRE_MFA : bool := true.

(** *** Time *)

(** An aware [datetime]: microseconds since the epoch. *)
Definition datetime : Type := Z.

Definition microseconds_per_day : Z := 86400000000.

(** [timedelta(days=n)]. *)
Definition timedelta_of_days (n : Z) : Z := n * microseconds_per_day.

(** [(a - b).days]: a [timedelta] is normalised with
    [0 <= seconds < 86400], so [days] is the floor of the quotient. *)
Definition days_between (a b : datetime) : Z := (a - b) / microseconds_per_day.

(** *** Enums and data classes *)

Inductive Severity : Type := CRITICAL | HIGH | MEDIUM | LOW | INFO.

Inductive ComplianceStatus : Type := COMPLIANT | NON_COMPLIANT | NOT_APPLICABLE.

Definition Severity_eqb (a b : Severity) : bool :=
  match a, b with
  | CRITICAL, CRITICAL | HIGH, HIGH | MEDIUM, MEDIUM | LOW, LOW | INFO, INFO => true
  | _, _ => false
  end.

Definition ComplianceStatus_eqb (a b : ComplianceStatus) : bool :=
  match a, b with
  | COMPLIANT, COMPLIANT | NON_COMPLIANT, NON_COMPLIANT
  | NOT_APPLICABLE, NOT_APPLICABLE => true
  | _, _ => false
  end.

Definition ComplianceStatus_eq_dec (a b : ComplianceStatus) : {a = b} + {a <> b}.
Proof. decide equality. Defined.

(** [Severity.X.value] and [ComplianceStatus.X.value]. *)
Definition Severity_value (a : Severity) : string :=
  match a with
  | CRITICAL => "CRITICAL"
  | HIGH => "HIGH"
  | MEDIUM => "MEDIUM"
  | LOW => "LOW"
  | INFO => "INFO"
  end.

Definition ComplianceStatus_value (a : ComplianceStatus) : string :=
  match a with
  | COMPLIANT => "COMPLIANT"
  | NON_COMPLIANT => "NON_COMPLIANT"
  | NOT_APPLICABLE => "N/A"
  end.

(** Values stored in the [details] mapping of a finding. *)
Inductive DetailValue : Type :=
| DBool (b : bool)
| DInt (z : Z)
| DStr (s : string)
| DStrList (l : list string).

Module Finding.
Record t : Type := make {
  rule_id : string;
  rule_name : string;
  resource_type : string;
  resource_id : string;
  severity : Severity;
  status : ComplianceStatus;
  description : string;
  recommendation : string;
  details : list (string * DetailValue)
}.

(** [to_dict]: the items of the dict, in order.  A value is a string or
    the [details] mapping. *)
Inductive value : Type :=
| VStr (s : string)
| VDetails (d : list (string * DetailValue)).

Definition to_dict (self : t) : list (string * value) :=
  [ ("rule_id", VStr (rule_id self));
    ("rule_name", VStr (rule_name self));
    ("resource_type", VStr (resource_type self));
    ("resource_id", VStr (resource_id self));
    ("severity", VStr (Severity_value (severity self)));
    ("status", VStr (ComplianceStatus_value (status self)));
    ("description", VStr (description self));
    ("recommendation", VStr (recommendation self));
    ("details", VDetails (details self)) ].
End Finding.

Module AuditReport.
Record t : Type := make {
  scan_timestamp : datetime;
  total_users : nat;
  total_findings : nat;
  critical_count : nat;
  high_count : nat;
  medium_count : nat;
  low_count : nat;
  compliance_score : float;
  findings : list Finding.t
}.
End AuditReport.

(** *** Identity records: the dicts the checks read *)

Record AccessKey : Type := {
  AccessKeyId : string;
  Status : string;
  CreateDate : datetime
}.

Record Policy : Type := {
  PolicyName : string;
  PolicyArn : string
}.

Record MFADevice : Type := { SerialNumber : string }.

(** The optional fields are the ones the checks read with [user.get]. *)
Record User : Type := {
  UserName : string;
  UserId : string;
  UserCreateDate : datetime;
  PasswordLastUsed : option datetime;
  MFADevices : option (list MFADevice);
  AccessKeys : option (list AccessKey);
  AttachedPolicies : option (list Policy);
  Groups : list string
}.

(** *** The auditor object *)

Record IAMComplianceAuditor : Type := {
  demo_mode : bool;
  findings : list Finding.t
}.

(** The state the methods run in: the auditor and how many times the wall
    clock has been read so far. *)
Record State : Type := {
  self : IAMComplianceAuditor;
  clock_reads : nat
}.

Definition M (A : Type) : Type := State -> A * State.

Definition ret {A : Type} (a : A) : M A := fun s => (a, s).

Definition bind {A B : Type} (c : M A) (k : A -> M B) : M B :=
  fun s => let (a, s') := c s in k a s'.

Notation "x <- c ;; k" := (bind c (fun x => k))
  (at level 61, c at next level, right associativity).
Notation "c ;;; k" := (bind c (fun _ => k))
  (at level 61, right associativity).

(** [self.findings.append(f)]. *)
Definition findings_append (f : Finding.t) : M unit :=
  fun s =>
    (tt, {| self := {| demo_mode := demo_mode (self s);
                       findings := (findings (self s) ++ [f])%list |};
            clock_reads := clock_reads s |}).

(** [self.findings = l]. *)
Definition findings_assign (l : list Finding.t) : M unit :=
  fun s =>
    (tt, {| self := {| demo_mode := demo_mode (self s); findings := l |};
            clock_reads := clock_reads s |}).

Definition get_self : M IAMComplianceAuditor := fun s => (self s, s).

(** [for x in xs: body(x)]. *)
Fixpoint for_each {A : Type} (xs : list A) (body : A -> M unit) : M unit :=
  match xs with
  | [] => ret tt
  | x :: rest => body x ;;; for_each rest body
  end.

Section Environment.

(** The wall clock: [utcnow k] is what the k-th call of [datetime.now]
    returns. *)
Variable utcnow : nat -> datetime.

(** The module-level fixture, as evaluated at import. *)
Variable DEMO_USERS : list User.

(** What the identity source collaborator lists in live mode, after
    enrichment. *)
Variable iam_users : list User.

Definition now : M datetime :=
  fun s => (utcnow (clock_reads s),
            {| self := self s; clock_reads := S (clock_reads s) |}).

Definition _get_users : M (list User) :=
  a <- get_self ;;
  if demo_mode a then ret DEMO_USERS else ret iam_users.

(** *** Compliance checks *)

Definition _check_mfa_enabled (user : User) : M unit :=
  let username := UserName user in
  let has_mfa := (0 <? List.length (Py.get_or (MFADevices user) []))%nat in
  let has_console :=
    match PasswordLastUsed user with Some _ => true | None => false end in
  if has_console && negb has_mfa then
    findings_append
      (Finding.make "CIS-1.2" "MFA for Console Users" "IAM User" username
         HIGH NON_COMPLIANT
         ("User " ++ username ++ " has console access but MFA is not enabled")
         "Enable MFA for this user immediately"
         [("has_console_access", DBool true); ("mfa_enabled", DBool false)])
  else ret tt.

(** The finding [_check_access_key_age] builds for one key. *)
Definition access_key_finding (username : string) (key : AccessKey)
    (age_days : Z) : Finding.t :=
  Finding.make "CIS-1.4" "Access Key Rotation" "IAM Access Key"
    (username ++ "/" ++ AccessKeyId key)
    MEDIUM NON_COMPLIANT
    ("Access key is " ++ Py.str_of_Z age_days ++ " days old (max: "
       ++ Py.str_of_Z MAX_ACCESS_KEY_AGE_DAYS ++ ")")
    "Rotate access key immediately"
    [("key_age_days", DInt age_days); ("threshold", DInt MAX_ACCESS_KEY_AGE_DAYS)].

Definition _check_access_key_age (user : User) : M unit :=
  let username := UserName user in
  for_each (Py.get_or (AccessKeys user) [])
    (fun key =>
       if negb (String.eqb (Status key) "Active") then ret tt
       else
         let create_date := CreateDate key in
         t <- now ;;
         let age_days := days_between t create_date in
         if (age_days >? MAX_ACCESS_KEY_AGE_DAYS)%Z then
           findings_append (access_key_finding username key age_days)
         else ret tt).

Definition _check_unused_credentials (user : User) : M unit :=
  let username := UserName user in
  match PasswordLastUsed user with
  | Some last_used =>
      t <- now ;;
      let days_unused := days_between t last_used in
      if (days_unused >? MAX_UNUSED_DAYS)%Z then
        findings_append
          (Finding.make "CIS-1.3" "Unused Credentials" "IAM User Password"
             username MEDIUM NON_COMPLIANT
             ("Password unused for " ++ Py.str_of_Z days_unused ++ " days")
             "Disable or remove unused credentials"
             [("days_unused", DInt days_unused); ("threshold", DInt MAX_UNUSED_DAYS)])
      else ret tt
  | None => ret tt
  end.

Definition _check_multiple_access_keys (user : User) : M unit :=
  let username := UserName user in
  let active_keys :=
    filter (fun k => String.eqb (Status k) "Active")
           (Py.get_or (AccessKeys user) []) in
  if (1 <? List.length active_keys)%nat then
    findings_append
      (Finding.make "BP-1" "Multiple Access Keys" "IAM User" username
         LOW NON_COMPLIANT
         ("User has " ++ Py.str_of_nat (List.length active_keys)
            ++ " active access keys")
         "Remove unused access keys"
         [("active_key_count", DInt (Z.of_nat (List.length active_keys)))])
  else ret tt.

Definition _check_direct_policy_attachment (user : User) : M unit :=
  let username := UserName user in
  let direct_policies := Py.get_or (AttachedPolicies user) [] in
  match direct_policies with
  | _ :: _ =>
      findings_append
        (Finding.make "BP-2" "Direct Policy Attachment" "IAM User" username
           LOW NON_COMPLIANT
           ("User has " ++ Py.str_of_nat (List.length direct_policies)
              ++ " directly attached policies")
           "Use IAM groups for policy management"
           [("policies", DStrList (map PolicyName direct_policies))])
  | [] => ret tt
  end.

Definition _check_admin_privileges (user : User) : M unit :=
  let username := UserName user in
  let admin_policies := ["AdministratorAccess"; "PowerUserAccess"] in
  for_each (Py.get_or (AttachedPolicies user) [])
    (fun policy =>
       if Py.str_mem (PolicyName policy) admin_policies then
         findings_append
           (Finding.make "CIS-1.16" "Admin Privilege Check" "IAM User" username
              CRITICAL NON_COMPLIANT
              ("User has " ++ PolicyName policy ++ " attached directly")
              "Use least-privilege policies instead"
              [("policy", DStr (PolicyName policy))])
       else ret tt).

Definition _check_password_policy : M unit :=
  a <- get_self ;;
  if demo_mode a then
    findings_append
      (Finding.make "CIS-1.9" "Password Reuse Prevention"
         "Account Password Policy" "PasswordPolicy" MEDIUM NON_COMPLIANT
         "Password policy does not prevent reuse of last 24 passwords"
         "Set PasswordReusePrevention to 24"
         [("current_value", DInt 12); ("required_value", DInt 24)])
  else ret tt.

Definition _check_root_account : M unit :=
  a <- get_self ;;
  if demo_mode a then
    findings_append
      (Finding.make "CIS-1.1" "Root Account Usage" "Root Account" "root"
         INFO COMPLIANT
         "Root account has not been used in the last 90 days"
         "Continue avoiding root account usage"
         [("last_used", DStr "Never or >90 days")])
  else ret tt.

(** *** Reporting *)

(** [len([f for f in fs if f.severity == sev])]. *)
Definition count_severity (sev : Severity) (fs : list Finding.t) : nat :=
  List.length (filter (fun f => Severity_eqb (Finding.severity f) sev) fs).

(** [len([f for f in fs if f.status == st])]. *)
Definition count_status (st : ComplianceStatus) (fs : list Finding.t) : nat :=
  List.length (filter (fun f => ComplianceStatus_eqb (Finding.status f) st) fs).

Definition _generate_report (total_users : nat) : M AuditReport.t :=
  a <- get_self ;;
  let critical := count_severity CRITICAL (findings a) in
  let high := count_severity HIGH (findings a) in
  let medium := count_severity MEDIUM (findings a) in
  let low := count_severity LOW (findings a) in
  let non_compliant := count_status NON_COMPLIANT (findings a) in
  let total_checks := List.length (findings a) in
  let compliance_score :=
    PrimFloat.mul (Py.truediv (total_checks - non_compliant) (Nat.max total_checks 1))
                  100%float in
  t <- now ;;
  ret (AuditReport.make t total_users (List.length (findings a))
         critical high medium low compliance_score (findings a)).

Definition run_full_audit : M AuditReport.t :=
  findings_assign [] ;;;
  users <- _get_users ;;
  for_each users
    (fun user =>
       _check_mfa_enabled user ;;;
       _check_access_key_age user ;;;
       _check_unused_credentials user ;;;
       _check_multiple_access_keys user ;;;
       _check_direct_policy_attachment user ;;;
       _check_admin_privileges user) ;;;
  _check_password_policy ;;;
  _check_root_account ;;;
  _generate_report (List.length users).

End Environment.

(** The constructor: [IAMComplianceAuditor(demo_mode)]. *)
Definition init (demo : bool) : IAMComplianceAuditor :=
  {| demo_mode := demo; findings := [] |}.

(** The fixture [DEMO_USERS] when every clock reading taken at import is
    the instant [t0]. *)
Definition DEMO_USERS_at (t0 : datetime) : list User :=
  [ {| UserName := "admin_user"; UserId := "AIDAEXAMPLE1";
       UserCreateDate := t0 - timedelta_of_days 400;
       PasswordLastUsed := Some (t0 - timedelta_of_days 5);
       MFADevices := Some [];
       AccessKeys := Some [ {| AccessKeyId := "AKIAEXAMPLE1"; Status := "Active";
                               CreateDate := t0 - timedelta_of_days 200 |} ];
       AttachedPolicies :=
         Some [ {| PolicyName := "AdministratorAccess";
                   PolicyArn := "arn:aws:iam::aws:policy/AdministratorAccess" |} ];
       Groups := ["Administrators"] |};
    {| UserName := "developer_jane"; UserId := "AIDAEXAMPLE2";
       UserCreateDate := t0 - timedelta_of_days 180;
       PasswordLastUsed := Some (t0 - timedelta_of_days 2);
       MFADevices :=
         Some [ {| SerialNumber := "arn:aws:iam::123456789012:mfa/developer_jane" |} ];
       AccessKeys := Some [ {| AccessKeyId := "AKIAEXAMPLE2"; Status := "Active";
                               CreateDate := t0 - timedelta_of_days 60 |} ];
       AttachedPolicies := Some [];
       Groups := ["Developers"] |};
    {| UserName := "inactive_user"; UserId := "AIDAEXAMPLE3";
       UserCreateDate := t0 - timedelta_of_days 365;
       PasswordLastUsed := Some (t0 - timedelta_of_days 120);
       MFADevices := Some [];
       AccessKeys := Some [ {| AccessKeyId := "AKIAEXAMPLE3"; Status := "Active";
                               CreateDate := t0 - timedelta_of_days 300 |} ];
       AttachedPolicies :=
         Some [ {| PolicyName := "PowerUserAccess";
                   PolicyArn := "arn:aws:iam::aws:policy/PowerUserAccess" |} ];
       Groups := [] |};
    {| UserName := "service_account"; UserId := "AIDAEXAMPLE4";
       UserCreateDate := t0 - timedelta_of_days 500;
       PasswordLastUsed := None;
       MFADevices := Some [];
       AccessKeys := Some [ {| AccessKeyId := "AKIAEXAMPLE4"; Status := "Active";
                               CreateDate := t0 - timedelta_of_days 500 |};
                            {| AccessKeyId := "AKIAEXAMPLE5"; Status := "Active";
                               CreateDate := t0 - timedelta_of_days 30 |} ];
       AttachedPolicies := Some [];
       Groups := ["ServiceAccounts"] |};
    {| UserName := "compliant_user"; UserId := "AIDAEXAMPLE5";
       UserCreateDate := t0 - timedelta_of_days 60;
       PasswordLastUsed := Some (t0 - timedelta_of_days 1);
       MFADevices :=
         Some [ {| SerialNumber := "arn:aws:iam::123456789012:mfa/compliant_user" |} ];
       AccessKeys := Some [ {| AccessKeyId := "AKIAEXAMPLE6"; Status := "Active";
                               CreateDate := t0 - timedelta_of_days 30 |} ];
       AttachedPolicies := Some [];
       Groups := ["StandardUsers"] |} ].

End Audit.

(** ** iam_provisioner.py *)

Module Provisioner.

(** *** Configuration *)

Definition DEMO_MODE : bool := true.
Definition DEFAULT_GROUP : string := "StandardUsers".
Definition PASSWORD_LENGTH : nat := 16.
Definition REQUIRE_PASSWORD_RESET : bool := true.
Definition CREDENTIALS_BUCKET : string := "company-iam-credentials".
Definition SNS_TOPIC_ARN : string :=
  "arn:aws:sns:us-east-1:123456789012:iam-notifications".

Definition DEPARTMENT_GROUPS : list (string * list string) :=
  [ ("IT", ["IT-Users"; "VPN-Access"; "CloudWatch-ReadOnly"]);
    ("Finance", ["Finance-Users"; "Billing-ReadOnly"]);
    ("HR", ["HR-Users"; "Employee-Records-Access"]);
    ("Engineering", ["Engineering-Users"; "Developer-Tools"; "S3-Dev-Access"]);
    ("Marketing", ["Marketing-Users"; "Analytics-ReadOnly"]);
    ("Sales", ["Sales-Users"; "CRM-Access"]) ].

Definition ROLE_POLICIES : list (string * list string) :=
  [ ("Developer", ["arn:aws:iam::aws:policy/PowerUserAccess"]);
    ("Analyst", ["arn:aws:iam::aws:policy/ReadOnlyAccess"]);
    ("Admin", ["arn:aws:iam::aws:policy/AdministratorAccess"]);
    ("Manager", ["arn:aws:iam::aws:policy/ReadOnlyAccess"]) ].

(** *** Data classes *)

Module UserRequest.
Record t : Type := make {
  username : string;
  email : string;
  department : string;
  role : string;
  first_name : string;
  last_name : string;
  manager : option string
}.

Definition display_name (self : t) : string :=
  first_name self ++ " " ++ last_name self.

Definition validate (self : t) : bool :=
  if negb (Py.all [Py.truthy (username self); Py.truthy (email self);
                   Py.truthy (department self); Py.truthy (role self)])
  then false
  else if negb (Py.str_in "@" (email self)) then false
  else if (Py.len (username self) <? 3)%nat
          || (64 <? Py.len (username self))%nat then false
  else true.
End UserRequest.

(** The [timestamp] field, a wall-clock stamp filled in by
    [__post_init__], is not part of the model; neither are the date
    stamps of tags and payloads. *)
Module ProvisioningResult.
Record t : Type := make {
  username : string;
  success : bool;
  message : string;
  groups_assigned : list string;
  policies_attached : list string;
  credentials_location : option string
}.
End ProvisioningResult.

(** *** Exceptions *)

(** [ClientError] carries [response['Error']['Code']] and
    [response['Error']['Message']], which botocore's response parser always
    fills in, and every exception carries its [str(e)].
    [ParamValidationError] is a subclass of [BotoCoreError]; [PyException]
    is any other subclass of [Exception], with its class name. *)
Inductive Exception : Type :=
| ClientError (code message text : string)
| BotoCoreError (text : string)
| ParamValidationError (text : string)
| PyException (cls text : string).

Definition str_e (e : Exception) : string :=
  match e with
  | ClientError _ _ text => text
  | BotoCoreError text => text
  | ParamValidationError text => text
  | PyException _ text => text
  end.

Definition isinstance_ClientError (e : Exception) : bool :=
  match e with ClientError _ _ _ => true | _ => false end.

Definition isinstance_BotoCoreError (e : Exception) : bool :=
  match e with BotoCoreError _ | ParamValidationError _ => true | _ => false end.

Definition isinstance_ParamValidationError (e : Exception) : bool :=
  match e with ParamValidationError _ => true | _ => false end.

(** [e.response.get('Error', {}).get('Code', '')] of a [ClientError]. *)
Definition error_code (e : Exception) : string :=
  match e with ClientError code _ _ => code | _ => "" end.

Definition error_message (e : Exception) : string :=
  match e with ClientError _ message _ => message | _ => "" end.

(** *** Collaborators *)

Inductive JsonValue : Type :=
| JStr (s : string)
| JBool (b : bool).

(** The calls the provisioner issues to IAM, Secrets Manager and SNS.  A
    JSON document is given by the items of the dict it is dumped from. *)
Inductive ApiCall : Type :=
| iam_create_user (UserName : string) (Tags : list (string * string))
| iam_add_user_to_group (UserName GroupName : string)
| iam_attach_user_policy (UserName PolicyArn : string)
| iam_create_login_profile (UserName Password : string)
    (PasswordResetRequired : bool)
| secrets_create_secret (Name : string) (SecretString : list (string * JsonValue))
    (Tags : list (string * string))
| secrets_put_secret_value (SecretId : string)
    (SecretString : list (string * JsonValue))
| sns_publish (TopicArn : string) (Message : list (string * JsonValue))
    (Subject : string).

(** What lies outside the provisioner object: the calls issued so far, in
    order; how many random characters have been drawn; the delays slept. *)
Record World : Type := {
  calls : list ApiCall;
  draws : nat;
  sleeps : list Q
}.

Record IAMProvisioner : Type := {
  demo_mode : bool;
  provisioned_users : list ProvisioningResult.t
}.

Record State : Type := {
  self : IAMProvisioner;
  world : World
}.

(** A method either raises or returns, and leaves a state either way. *)
Definition M (A : Type) : Type := State -> (Exception + A) * State.

Definition ret {A : Type} (a : A) : M A := fun s => (inr a, s).

Definition raise {A : Type} (e : Exception) : M A := fun s => (inl e, s).

Definition bind {A B : Type} (c : M A) (k : A -> M B) : M B :=
  fun s =>
    match c s with
    | (inl e, s') => (inl e, s')
    | (inr a, s') => k a s'
    end.

(** [try: x = c; k(x)  except Exception as e: handler(e)], where only [c]
    can raise. *)
Definition try_step {A B : Type} (c : M A) (handler : Exception -> M B)
    (k : A -> M B) : M B :=
  fun s =>
    match c s with
    | (inl e, s') => handler e s'
    | (inr a, s') => k a s'
    end.

Notation "x <- c ;; k" := (bind c (fun x => k))
  (at level 61, c at next level, right associativity).
Notation "c ;;; k" := (bind c (fun _ => k))
  (at level 61, right associativity).

Definition get_self : M IAMProvisioner := fun s => (inr (self s), s).

(** [self.provisioned_users.append(r)]. *)
Definition provisioned_users_append (r : ProvisioningResult.t) : M unit :=
  fun s =>
    (inr tt,
     {| self := {| demo_mode := demo_mode (self s);
                   provisioned_users := (provisioned_users (self s) ++ [r])%list |};
        world := world s |}).

(** [time.sleep(delay)]. *)
Definition sleep (delay : Q) : M unit :=
  fun s =>
    (inr tt,
     {| self := self s;
        world := {| calls := calls (world s); draws := draws (world s);
                    sleeps := (sleeps (world s) ++ [delay])%list |} |}).

(** The constructor in demo mode or with clients that initialise. *)
Definition init (demo : bool) : IAMProvisioner :=
  {| demo_mode := demo; provisioned_users := [] |}.

Definition empty_world : World := {| calls := []; draws := 0; sleeps := [] |}.

(** *** Strings *)

Definition ascii_lowercase : string := "abcdefghijklmnopqrstuvwxyz".
Definition ascii_uppercase : string := "ABCDEFGHIJKLMNOPQRSTUVWXYZ".
Definition ascii_letters : string := ascii_lowercase ++ ascii_uppercase.
Definition digits : string := "0123456789".

Definition in_range (lo hi : nat) (c : ascii) : bool :=
  (lo <=? nat_of_ascii c)%nat && (nat_of_ascii c <=? hi)%nat.

(** [c.isupper()], [c.islower()] and [c.isdigit()] for an ASCII character. *)
Definition isupper (c : ascii) : bool := in_range 65 90 c.
Definition islower (c : ascii) : bool := in_range 97 122 c.
Definition isdigit (c : ascii) : bool := in_range 48 57 c.

(** [s[n:]] and [s[:n]] for [n >= 0]. *)
Fixpoint slice_from (n : nat) (s : string) : string :=
  match n, s with
  | O, _ => s
  | S _, EmptyString => EmptyString
  | S n', String _ rest => slice_from n' rest
  end.

Fixpoint slice_to (n : nat) (s : string) : string :=
  match n, s with
  | O, _ => EmptyString
  | S _, EmptyString => EmptyString
  | S n', String c rest => String c (slice_to n' rest)
  end.

Definition str_of_char (c : ascii) : string := String c EmptyString.

(** [s[i]]: raises [IndexError] out of range. *)
Definition index (s : string) (i : nat) : M ascii :=
  match String.get i s with
  | Some c => ret c
  | None => raise (PyException "IndexError" "string index out of range")
  end.

(** [xs.remove(x)]: deletes the first occurrence ([ValueError] when there
    is none is not needed: the only caller removes an element it has just
    read from the list). *)
Fixpoint list_remove (x : string) (xs : list string) : list string :=
  match xs with
  | [] => []
  | y :: rest => if String.eqb y x then rest else y :: list_remove x rest
  end.

Section Environment.

(** The backend: [respond history call] is [Some e] when [call], issued
    after the calls of [history], raises [e], and [None] when it
    returns. *)
Variable respond : list ApiCall -> ApiCall -> option Exception.

(** The random source behind [secrets.choice]: [entropy k] is the k-th
    number drawn. *)
Variable entropy : nat -> nat.

(** A live call to a client: the call is issued, and raises or returns
    as the backend decides. *)
Definition api (c : ApiCall) : M unit :=
  fun s =>
    let s' := {| self := self s;
                 world := {| calls := (calls (world s) ++ [c])%list;
                             draws := draws (world s);
                             sleeps := sleeps (world s) |} |} in
    match respond (calls (world s)) c with
    | Some e => (inl e, s')
    | None => (inr tt, s')
    end.

(** [secrets.choice(seq)]: a uniformly drawn element of a non-empty
    sequence; [IndexError] on an empty one. *)
Definition choice (seq : string) : M ascii :=
  fun s =>
    let s' := {| self := self s;
                 world := {| calls := calls (world s);
                             draws := S (draws (world s));
                             sleeps := sleeps (world s) |} |} in
    match String.get (entropy (draws (world s)) mod String.length seq)%nat seq with
    | Some c => (inr c, s')
    | None =>
        (inl (PyException "IndexError" "Cannot choose from an empty sequence"), s)
    end.

(** *** Decorators *)

Definition is_throttle (e : Exception) : bool :=
  Py.str_mem (error_code e) ["Throttling"; "RequestLimitExceeded"].

(** The [for attempt in range(max_retries)] loop of the wrapper, from
    [attempt] on, with [remaining] iterations left.  [None] is the
    [return None] after the loop. *)
Fixpoint retry_loop {A : Type} (max_retries : nat) (base_delay : Q)
    (func : M A) (remaining attempt : nat) : M (option A) :=
  match remaining with
  | O => ret None
  | S remaining' =>
      fun s =>
        match func s with
        | (inr v, s') => (inr (Some v), s')
        | (inl e, s') =>
            if isinstance_ClientError e then
              if is_throttle e then
                if (attempt <? max_retries - 1)%nat then
                  let delay := (base_delay * inject_Z (2 ^ Z.of_nat attempt))%Q in
                  (sleep delay ;;;
                   retry_loop max_retries base_delay func remaining' (S attempt)) s'
                else (inl e, s')
              else (inl e, s')
            else (inl e, s')
        end
  end.

Definition retry_on_throttle {A : Type} (max_retries : nat) (base_delay : Q)
    (func : M A) : M (option A) :=
  retry_loop max_retries base_delay func max_retries 0.

(** [audit_log(action)]: logs and hands on the value or the exception. *)
Definition audit_log {A : Type} (action : string) (func : M A) : M A :=
  fun s =>
    match func s with
    | (inr result, s') => (inr result, s')
    | (inl e, s') => (inl e, s')
    end.

(** *** Provisioning steps *)

Definition _create_iam_user (request : UserRequest.t) : M unit :=
  let tags :=
    [ ("Department", UserRequest.department request);
      ("Role", UserRequest.role request);
      ("Email", UserRequest.email request);
      ("DisplayName", UserRequest.display_name request);
      ("CreatedBy", "IAM-Automation") ] in
  let tags :=
    match UserRequest.manager request with
    | Some m => if Py.truthy m then (tags ++ [("Manager", m)])%list else tags
    | None => tags
    end in
  a <- get_self ;;
  if demo_mode a then ret tt
  else api (iam_create_user (UserRequest.username request) tags).

(** The [for group in groups] loop: the list iterator keeps an index
    [i] into [groups] and stops when [i] reaches the current length, so
    a [groups.remove] inside the body shifts the elements under it.
    [fuel] bounds the iterations; [length groups] is enough. *)
Fixpoint assign_loop (fuel : nat) (request : UserRequest.t) (i : nat)
    (groups : list string) : M (list string) :=
  match fuel with
  | O => ret groups
  | S fuel' =>
      match nth_error groups i with
      | None => ret groups
      | Some group =>
          a <- get_self ;;
          if demo_mode a then assign_loop fuel' request (S i) groups
          else
            try_step
              (api (iam_add_user_to_group (UserRequest.username request) group))
              (fun e =>
                 if isinstance_ClientError e then
                   if String.eqb (error_code e) "NoSuchEntity" then
                     assign_loop fuel' request (S i) (list_remove group groups)
                   else raise e
                 else raise e)
              (fun _ => assign_loop fuel' request (S i) groups)
      end
  end.

Definition _assign_groups (request : UserRequest.t) : M (list string) :=
  let groups := [DEFAULT_GROUP] in
  let groups :=
    match Py.dict_get DEPARTMENT_GROUPS (UserRequest.department request) with
    | Some dept_groups => (groups ++ dept_groups)%list
    | None => groups
    end in
  assign_loop (List.length groups) request 0 groups.

Fixpoint attach_loop (request : UserRequest.t) (policies : list string) : M unit :=
  match policies with
  | [] => ret tt
  | policy_arn :: rest =>
      a <- get_self ;;
      (if demo_mode a then ret tt
       else api (iam_attach_user_policy (UserRequest.username request) policy_arn)) ;;;
      attach_loop request rest
  end.

Definition _attach_policies (request : UserRequest.t) : M (list string) :=
  match Py.dict_get ROLE_POLICIES (UserRequest.role request) with
  | Some policies => attach_loop request policies ;;; ret policies
  | None => ret []
  end.

(** [''.join(secrets.choice(alphabet) for _ in range(n))]. *)
Fixpoint join_choices (n : nat) (alphabet : string) : M string :=
  match n with
  | O => ret EmptyString
  | S n' =>
      c <- choice alphabet ;;
      rest <- join_choices n' alphabet ;;
      ret (String c rest)
  end.

Definition _generate_password : M string :=
  let alphabet := ascii_letters ++ digits ++ "!@#$%^&*" in
  password <- join_choices PASSWORD_LENGTH alphabet ;;
  password <-
    (if negb (Py.any isupper password) then
       c <- choice ascii_uppercase ;;
       ret (str_of_char c ++ slice_from 1 password)
     else ret password) ;;
  password <-
    (if negb (Py.any islower password) then
       p0 <- index password 0 ;;
       c <- choice ascii_lowercase ;;
       ret (str_of_char p0 ++ str_of_char c ++ slice_from 2 password)
     else ret password) ;;
  password <-
    (if negb (Py.any isdigit password) then
       c <- choice digits ;;
       ret (slice_to 2 password ++ str_of_char c ++ slice_from 3 password)
     else ret password) ;;
  ret password.

Definition _set_login_profile (username password : string) : M unit :=
  a <- get_self ;;
  if demo_mode a then ret tt
  else api (iam_create_login_profile username password REQUIRE_PASSWORD_RESET).

Definition _store_credentials (request : UserRequest.t) (password : string)
    : M string :=
  let secret_name :=
    "iam-credentials/" ++ UserRequest.department request ++ "/"
      ++ UserRequest.username request in
  let credentials_data :=
    [ ("username", JStr (UserRequest.username request));
      ("email", JStr (UserRequest.email request));
      ("temporary_password", JStr password);
      ("console_url", JStr "https://company.signin.aws.amazon.com/console");
      ("requires_password_reset", JBool true) ] in
  a <- get_self ;;
  if demo_mode a then ret ("secretsmanager:" ++ secret_name)
  else
    try_step
      (api (secrets_create_secret secret_name credentials_data
              [ ("Department", UserRequest.department request);
                ("ManagedBy", "IAM-Automation") ]))
      (fun e =>
         if isinstance_ClientError e then
           if String.eqb (error_code e) "ResourceExistsException" then
             api (secrets_put_secret_value secret_name credentials_data) ;;;
             ret ("secretsmanager:" ++ secret_name)
           else raise e
         else raise e)
      (fun _ => ret ("secretsmanager:" ++ secret_name)).

Definition _send_notification (request : UserRequest.t) (creds_location : string)
    : M unit :=
  let message :=
    [ ("event", JStr "USER_PROVISIONED");
      ("username", JStr (UserRequest.username request));
      ("email", JStr (UserRequest.email request));
      ("department", JStr (UserRequest.department request));
      ("credentials_location", JStr creds_location) ] in
  a <- get_self ;;
  if demo_mode a then ret tt
  else
    api (sns_publish SNS_TOPIC_ARN message
           ("IAM User Provisioned: " ++ UserRequest.username request)).

(** *** The orchestrator *)

(** The message chosen by the [except ClientError] clause. *)
Definition client_error_message (request : UserRequest.t) (e : Exception)
    : string :=
  let code := error_code e in
  if String.eqb code "EntityAlreadyExists" then
    "User " ++ UserRequest.username request ++ " already exists"
  else if String.eqb code "LimitExceeded" then
    "IAM user limit reached - contact AWS support"
  else if String.eqb code "MalformedPolicyDocument" then "Invalid policy document"
  else if String.eqb code "NoSuchEntity" then "Referenced resource not found"
  else if String.eqb code "InvalidInput" then "Invalid input: " ++ error_message e
  else str_e e.

(** The four [except] clauses of [create_user], tried in order, with the
    values [groups_assigned] and [policies_attached] have when the
    exception arrives. *)
Definition except_clauses (request : UserRequest.t)
    (groups_assigned policies_attached : list string) (e : Exception)
    : M ProvisioningResult.t :=
  let failed (message : string) :=
    ProvisioningResult.make (UserRequest.username request) false message
      groups_assigned policies_attached None in
  if isinstance_ClientError e then ret (failed (client_error_message request e))
  else if isinstance_BotoCoreError e then
    ret (failed ("AWS connection error: " ++ str_e e))
  else if isinstance_ParamValidationError e then
    ret (failed ("Parameter validation error: " ++ str_e e))
  else ret (failed ("Unexpected error: " ++ str_e e)).

(** The body of [create_user], under its decorators. *)
Definition create_user_body (request : UserRequest.t) : M ProvisioningResult.t :=
  if negb (UserRequest.validate request) then
    ret (ProvisioningResult.make (UserRequest.username request) false
           "Validation failed" [] [] None)
  else
    let groups_assigned : list string := [] in
    let policies_attached : list string := [] in
    try_step (_create_iam_user request)
      (except_clauses request groups_assigned policies_attached) (fun _ =>
    try_step (_assign_groups request)
      (except_clauses request groups_assigned policies_attached) (fun groups_assigned =>
    try_step (_attach_policies request)
      (except_clauses request groups_assigned policies_attached) (fun policies_attached =>
    try_step _generate_password
      (except_clauses request groups_assigned policies_attached) (fun password =>
    try_step (_set_login_profile (UserRequest.username request) password)
      (except_clauses request groups_assigned policies_attached) (fun _ =>
    try_step (_store_credentials request password)
      (except_clauses request groups_assigned policies_attached) (fun creds_location =>
    try_step (_send_notification request creds_location)
      (except_clauses request groups_assigned policies_attached) (fun _ =>
      let result :=
        ProvisioningResult.make (UserRequest.username request) true
          "User provisioned successfully" groups_assigned policies_attached
          (Some creds_location) in
      provisioned_users_append result ;;;
      ret result))))))).

(** [create_user] as decorated:
    [@audit_log("CREATE_USER") @retry_on_throttle()]. *)
Definition create_user (request : UserRequest.t)
    : M (option ProvisioningResult.t) :=
  audit_log "CREATE_USER" (retry_on_throttle 3 1 (create_user_body request)).

(** *** Bulk operations *)

(** One row of [csv.DictReader]: column name to cell. *)
Definition Row : Type := list (string * string).

Definition request_of_row (row : Row) : UserRequest.t :=
  let get2 (k1 k2 default : string) : string :=
    Py.get_or (Py.dict_get row k1) (Py.get_or (Py.dict_get row k2) default) in
  UserRequest.make
    (get2 "username" "Username" "")
    (get2 "email" "Email" "")
    (get2 "department" "Department" "")
    (get2 "role" "Role" "Employee")
    (get2 "first_name" "FirstName" "")
    (get2 "last_name" "LastName" "")
    (match Py.dict_get row "manager" with
     | Some m => Some m
     | None => Py.dict_get row "Manager"
     end).

(** [provision_from_csv], given the rows read from the file. *)
Fixpoint provision_rows (rows : list Row)
    (results : list (option ProvisioningResult.t))
    : M (list (option ProvisioningResult.t)) :=
  match rows with
  | [] => ret results
  | row :: rest =>
      let request := request_of_row row in
      result <- create_user request ;;
      let results := (results ++ [result])%list in
      sleep (1 # 10) ;;;
      provision_rows rest results
  end.

Definition provision_from_csv (rows : list Row)
    : M (list (option ProvisioningResult.t)) :=
  provision_rows rows [].

(** The loop of [main]: [for user in users: provisioner.create_user(user)]. *)
Fixpoint provision_each (users : list UserRequest.t) : M unit :=
  match users with
  | [] => ret tt
  | user :: rest => create_user user ;;; provision_each rest
  end.

End Environment.

(** *** Reporting *)

(** The dict [get_summary] returns; [success_rate] is the value that is
    then rendered with one decimal and a percent sign. *)
Record Summary : Type := {
  total_processed : nat;
  successful : nat;
  failed : nat;
  success_rate : float;
  users_provisioned : list string;
  users_failed : list (string * string)
}.

Definition get_summary (self : IAMProvisioner) : Summary :=
  let successful :=
    filter (fun r => ProvisioningResult.success r) (provisioned_users self) in
  let failed :=
    filter (fun r => negb (ProvisioningResult.success r)) (provisioned_users self) in
  {| total_processed := List.length (provisioned_users self);
     successful := List.length successful;
     failed := List.length failed;
     success_rate :=
       PrimFloat.mul
         (Py.truediv (List.length successful)
                     (Nat.max (List.length (provisioned_users self)) 1))
         100%float;
     users_provisioned := map ProvisioningResult.username successful;
     users_failed :=
       map (fun r => (ProvisioningResult.username r, ProvisioningResult.message r))
           failed |}.

End Provisioner.

(** * Vocabulary of the statements *)

Module AuditSpec.

Import Audit.

(** The age in whole days of an access key at the clock reading taken when
    the key is examined. *)
Definition key_age (kt : AccessKey * datetime) : Z :=
  days_between (snd kt) (CreateDate (fst kt)).

(** A computation is [steady] when it keeps the auditor's mode and when,
    started from two states that hold the same auditor, it returns the same
    value and leaves the same auditor, however many times the clock had
    been read before. *)
Definition steady {A : Type} (c : M A) : Prop :=
  (forall s, demo_mode (self (snd (c s))) = demo_mode (self s))
  /\ (forall s1 s2, self s1 = self s2 ->
        fst (c s1) = fst (c s2) /\ self (snd (c s1)) = self (snd (c s2))).

(** *** Concrete clocks, identities and findings *)

(** Noon of 1 December 2025, UTC. *)
Definition noon : datetime := 1764590400000000.

(** A clock that stands still. *)
Definition frozen (t : datetime) : nat -> datetime := fun _ => t.

(** An auditor that has not run yet. *)
Definition fresh (demo : bool) : State :=
  {| self := init demo; clock_reads := 0 |}.

(** The identity of the access-key tests, with one active key created
    [age] days and one hour before [noon]. *)
Definition key_created (age : Z) : AccessKey :=
  {| AccessKeyId := "AKIAEXAMPLE"; Status := "Active";
     CreateDate := noon - timedelta_of_days age - 3600000000 |}.

Definition old_key_user (age : Z) : User :=
  {| UserName := "old_key_user"; UserId := "AIDAEXAMPLE";
     UserCreateDate := noon - timedelta_of_days 400;
     PasswordLastUsed := None;
     MFADevices := None;
     AccessKeys := Some [key_created age];
     AttachedPolicies := None;
     Groups := [] |}.

(** The two findings of the compliance-score test. *)
Definition test_findings : list Finding.t :=
  [ Finding.make "TEST-1" "Test" "User" "user1" HIGH NON_COMPLIANT "Test" "Test" [];
    Finding.make "TEST-2" "Test" "User" "user2" INFO COMPLIANT "Test" "Test" [] ].

(** *** Vocabulary of the further properties *)

(** The six checks [run_full_audit] runs for one identity, in order. *)
Definition user_checks (utcnow : nat -> datetime) (user : User) : M unit :=
  _check_mfa_enabled user ;;;
  _check_access_key_age utcnow user ;;;
  _check_unused_credentials utcnow user ;;;
  _check_multiple_access_keys user ;;;
  _check_direct_policy_attachment user ;;;
  _check_admin_privileges user.

(** The findings of the scan of [users]: what an auditor that holds no
    finding holds after the checks of each identity have run, in the order
    of the listing, the clock having been read [clock] times before. *)
Definition scan_findings (utcnow : nat -> datetime) (users : list User)
    (demo : bool) (clock : nat) : list Finding.t :=
  findings
    (self (snd (for_each users (user_checks utcnow)
                  {| self := init demo; clock_reads := clock |}))).

(** A computation only appends: it keeps the auditor's mode, keeps the
    findings already held, in order, and may add findings after them. *)
Definition only_appends {A : Type} (c : M A) : Prop :=
  forall s,
    demo_mode (self (snd (c s))) = demo_mode (self s)
    /\ exists added,
         findings (self (snd (c s))) = (findings (self s) ++ added)%list.

(** The two account-level findings of demo mode. *)
Definition password_policy_finding : Finding.t :=
  Finding.make "CIS-1.9" "Password Reuse Prevention" "Account Password Policy"
    "PasswordPolicy" MEDIUM NON_COMPLIANT
    "Password policy does not prevent reuse of last 24 passwords"
    "Set PasswordReusePrevention to 24"
    [("current_value", DInt 12); ("required_value", DInt 24)].

Definition root_account_finding : Finding.t :=
  Finding.make "CIS-1.1" "Root Account Usage" "Root Account" "root" INFO COMPLIANT
    "Root account has not been used in the last 90 days"
    "Continue avoiding root account usage"
    [("last_used", DStr "Never or >90 days")].

Definition account_level_findings (demo : bool) : list Finding.t :=
  if demo then [password_policy_finding; root_account_finding] else [].

(** The names that count as administrator policies. *)
Definition is_admin_policy (p : Policy) : bool :=
  String.eqb (PolicyName p) "AdministratorAccess"
  || String.eqb (PolicyName p) "PowerUserAccess".

(** An identity that logged in [idle] days and one hour before [noon] and
    has an MFA device. *)
Definition idle_user (idle : Z) : User :=
  {| UserName := "inactive_user"; UserId := "AIDAEXAMPLE3";
     UserCreateDate := noon - timedelta_of_days 365;
     PasswordLastUsed := Some (noon - timedelta_of_days idle - 3600000000);
     MFADevices := Some [ {| SerialNumber := "arn:aws:iam::123456789012:mfa/u" |} ];
     AccessKeys := None;
     AttachedPolicies := None;
     Groups := [] |}.

End AuditSpec.

Module ProvisionerSpec.

Import Provisioner.

(** A throttling signal: a [ClientError] with one of the two codes. *)
Definition throttling (e : Exception) : Prop :=
  (exists message text, e = ClientError "Throttling" message text)
  \/ (exists message text, e = ClientError "RequestLimitExceeded" message text).

(** The state after [time.sleep(delay)]. *)
Definition slept (delay : Q) (s : State) : State := snd (sleep delay s).

(** [pres P c]: whatever state [c] starts in, the state it leaves is
    related to it by [P]. *)
Definition pres {A : Type} (P : State -> State -> Prop) (c : M A) : Prop :=
  forall s, P s (snd (c s)).

(** The provisioner object is untouched. *)
Definition keeps_self (s s' : State) : Prop := self s' = self s.

(** The calls issued before are still there, in order, and calls may have
    been added after them. *)
Definition calls_grow (s s' : State) : Prop :=
  exists extra, calls (world s') = (calls (world s) ++ extra)%list.

(** *** Concrete backends, random sources and requests *)

(** A fresh provisioner in an untouched world. *)
Definition fresh (demo : bool) : State :=
  {| self := init demo; world := empty_world |}.

(** A backend on which every call succeeds. *)
Definition backend_ok : list ApiCall -> ApiCall -> option Exception :=
  fun _ _ => None.

(** The random source whose k-th number is k. *)
Definition entropy_id (k : nat) : nat := k.

(** The random source that draws the sixteen characters
    [!!A!!!!!!!!!!!!!], then the first letter and the first digit. *)
Definition entropy_symbols (k : nat) : nat :=
  match k with
  | 2 => 26
  | 16 => 0
  | 17 => 0
  | _ => 62
  end%nat.

Definition jsmith : UserRequest.t :=
  UserRequest.make "jsmith" "jsmith@company.com" "Engineering" "Developer"
    "John" "Smith" (Some "mwilliams").

Definition bwilliams : UserRequest.t :=
  UserRequest.make "bwilliams" "bwilliams@company.com" "IT" "Admin"
    "Bob" "Williams" None.

(** The invalid request of the test suite: a username of two characters. *)
Definition too_short : UserRequest.t :=
  UserRequest.make "ab" "invalid" "IT" "Developer" "" "" None.

(** A username of [n] accented letters: each is the code point U+00E9,
    two bytes in UTF-8. *)
Fixpoint accented (n : nat) : string :=
  match n with
  | O => ""
  | S k => String "195"%char (String "169"%char (accented k))
  end.

(** A request that is well formed apart, possibly, from its username. *)
Definition named (username : string) : UserRequest.t :=
  UserRequest.make username "user@company.com" "Engineering" "Developer"
    "Ada" "User" None.

(** An account in which the groups IT-Users and VPN-Access do not exist:
    adding a user to either raises NoSuchEntity, every other call succeeds. *)
Definition missing_groups : list string := ["IT-Users"; "VPN-Access"].

Definition backend_missing_groups : list ApiCall -> ApiCall -> option Exception :=
  fun _ c =>
    match c with
    | iam_add_user_to_group _ group =>
        if Py.str_mem group missing_groups then
          Some (ClientError "NoSuchEntity"
                  ("The group with name " ++ group ++ " cannot be found.")
                  ("An error occurred (NoSuchEntity) when calling the "
                   ++ "AddUserToGroup operation: The group with name "
                   ++ group ++ " cannot be found."))
        else None
    | _ => None
    end.

(** A backend that refuses every policy attachment. *)
Definition access_denied : Exception :=
  ClientError "AccessDenied" "User is not authorized to perform iam:AttachUserPolicy"
    "An error occurred (AccessDenied) when calling the AttachUserPolicy operation".


(** A backend that throttles the first two calls it receives. *)
Definition rate_exceeded : Exception :=
  ClientError "Throttling" "Rate exceeded"
    "An error occurred (Throttling) when calling the CreateUser operation".

Definition backend_throttles_twice : list ApiCall -> ApiCall -> option Exception :=
  fun history _ => if (List.length history <? 2)%nat then Some rate_exceeded else None.

(** Two rows of a bulk file: a valid request and the invalid one. *)
Definition batch_rows : list Row :=
  [ [ ("username", "jsmith"); ("email", "jsmith@company.com");
      ("department", "Engineering"); ("role", "Developer");
      ("first_name", "John"); ("last_name", "Smith"); ("manager", "mwilliams") ];
    [ ("username", "ab"); ("email", "invalid"); ("department", "IT");
      ("role", "Developer"); ("first_name", ""); ("last_name", "");
      ("manager", "") ] ].

(** *** Vocabulary of the further properties *)

(** The groups a request is meant to join: the default group, then the
    groups of its department when the department is known. *)
Definition target_groups (request : UserRequest.t) : list string :=
  (DEFAULT_GROUP
   :: Py.get_or (Py.dict_get DEPARTMENT_GROUPS (UserRequest.department request)) [])%list.

(** The managed policies of a request's role; none for an unknown role. *)
Definition role_policies (request : UserRequest.t) : list string :=
  Py.get_or (Py.dict_get ROLE_POLICIES (UserRequest.role request)) [].

(** Where the credentials of a request are stored. *)
Definition secret_locator (request : UserRequest.t) : string :=
  "secretsmanager:iam-credentials/" ++ UserRequest.department request ++ "/"
    ++ UserRequest.username request.

(** The result of a successful provisioning. *)
Definition provisioned (request : UserRequest.t) : ProvisioningResult.t :=
  ProvisioningResult.make (UserRequest.username request) true
    "User provisioned successfully" (target_groups request) (role_policies request)
    (Some (secret_locator request)).

(** A backend on which every call returns. *)
Definition accepts_all (respond : list ApiCall -> ApiCall -> option Exception)
    : Prop :=
  forall history c, respond history c = None.

(** The state after the calls [cs] have been issued, in order. *)
Definition issued (cs : list ApiCall) (s : State) : State :=
  {| self := self s;
     world := {| calls := (calls (world s) ++ cs)%list;
                 draws := draws (world s);
                 sleeps := sleeps (world s) |} |}.

(** Only random characters were drawn: the provisioner, the calls issued
    and the delays slept are the same. *)
Definition only_draws (s s' : State) : Prop :=
  self s' = self s
  /\ calls (world s') = calls (world s)
  /\ sleeps (world s') = sleeps (world s).

(** The delays slept are the same. *)
Definition keeps_sleeps (s s' : State) : Prop :=
  sleeps (world s') = sleeps (world s).

(** The characters a password may hold. *)
Definition password_alphabet : string := ascii_letters ++ digits ++ "!@#$%^&*".

Definition allowed (c : ascii) : bool :=
  existsb (Ascii.eqb c) (list_ascii_of_string password_alphabet).

(** The live calls of a provisioning that meets no failure, the password
    being [password]. *)
Definition provisioning_calls (request : UserRequest.t) (password : string)
    : list ApiCall :=
  let username := UserRequest.username request in
  let secret_name :=
    "iam-credentials/" ++ UserRequest.department request ++ "/" ++ username in
  ([ iam_create_user username
       ([ ("Department", UserRequest.department request);
          ("Role", UserRequest.role request);
          ("Email", UserRequest.email request);
          ("DisplayName", UserRequest.display_name request);
          ("CreatedBy", "IAM-Automation") ]
        ++ match UserRequest.manager request with
           | Some m => if Py.truthy m then [("Manager", m)] else []
           | None => []
           end) ]
   ++ map (iam_add_user_to_group username) (target_groups request)
   ++ map (iam_attach_user_policy username) (role_policies request)
   ++ [ iam_create_login_profile username password true;
        secrets_create_secret secret_name
          [ ("username", JStr username);
            ("email", JStr (UserRequest.email request));
            ("temporary_password", JStr password);
            ("console_url", JStr "https://company.signin.aws.amazon.com/console");
            ("requires_password_reset", JBool true) ]
          [ ("Department", UserRequest.department request);
            ("ManagedBy", "IAM-Automation") ];
        sns_publish SNS_TOPIC_ARN
          [ ("event", JStr "USER_PROVISIONED");
            ("username", JStr username);
            ("email", JStr (UserRequest.email request));
            ("department", JStr (UserRequest.department request));
            ("credentials_location", JStr (secret_locator request)) ]
          ("IAM User Provisioned: " ++ username) ])%list.

(** The operation of a call: its name and the arguments that say what it
    acts on, without the tags and documents sent along; of a secret's
    document, the password it holds. *)
Inductive Operation : Type :=
| CreateUser (UserName : string)
| AddUserToGroup (UserName GroupName : string)
| AttachUserPolicy (UserName PolicyArn : string)
| CreateLoginProfile (UserName Password : string) (PasswordResetRequired : bool)
| CreateSecret (Name : string) (temporary_password : option JsonValue)
| PutSecretValue (SecretId : string) (temporary_password : option JsonValue)
| Publish (TopicArn Subject : string).

Definition operation (c : ApiCall) : Operation :=
  match c with
  | iam_create_user username _ => CreateUser username
  | iam_add_user_to_group username group => AddUserToGroup username group
  | iam_attach_user_policy username arn => AttachUserPolicy username arn
  | iam_create_login_profile username password reset =>
      CreateLoginProfile username password reset
  | secrets_create_secret name document _ =>
      CreateSecret name (Py.dict_get document "temporary_password")
  | secrets_put_secret_value name document =>
      PutSecretValue name (Py.dict_get document "temporary_password")
  | sns_publish topic _ subject => Publish topic subject
  end.

(** The operations of a live provisioning that meets no failure, the
    password being [password]. *)
Definition provisioning_operations (request : UserRequest.t) (password : string)
    : list Operation :=
  let username := UserRequest.username request in
  ([ CreateUser username ]
   ++ map (AddUserToGroup username) (target_groups request)
   ++ map (AttachUserPolicy username) (role_policies request)
   ++ [ CreateLoginProfile username password true;
        CreateSecret ("iam-credentials/" ++ UserRequest.department request ++ "/"
                      ++ username) (Some (JStr password));
        Publish SNS_TOPIC_ARN ("IAM User Provisioned: " ++ username) ])%list.

(** A backend that refuses to attach one policy and accepts every other
    call. *)
Definition backend_refuses_policy (arn : string)
    : list ApiCall -> ApiCall -> option Exception :=
  fun _ c =>
    match c with
    | iam_attach_user_policy _ arn' =>
        if String.eqb arn' arn then Some access_denied else None
    | _ => None
    end.


(** The two calls [_store_credentials] can issue. *)
Definition credentials_data (request : UserRequest.t) (password : string)
    : list (string * JsonValue) :=
  [ ("username", JStr (UserRequest.username request));
    ("email", JStr (UserRequest.email request));
    ("temporary_password", JStr password);
    ("console_url", JStr "https://company.signin.aws.amazon.com/console");
    ("requires_password_reset", JBool true) ].

Definition secret_name (request : UserRequest.t) : string :=
  "iam-credentials/" ++ UserRequest.department request ++ "/"
    ++ UserRequest.username request.

Definition create_secret_call (request : UserRequest.t) (password : string) : ApiCall :=
  secrets_create_secret (secret_name request) (credentials_data request password)
    [ ("Department", UserRequest.department request);
      ("ManagedBy", "IAM-Automation") ].

Definition put_secret_call (request : UserRequest.t) (password : string) : ApiCall :=
  secrets_put_secret_value (secret_name request) (credentials_data request password).



(** A column is missing from a row under both of its spellings. *)
Definition column_missing (row : Row) (lower upper : string) : Prop :=
  Py.dict_get row lower = None /\ Py.dict_get row upper = None.

(** A backend that throttles every call. *)
Definition backend_always_throttles : list ApiCall -> ApiCall -> option Exception :=
  fun _ _ => Some rate_exceeded.

(** A backend on which the secret of any request exists already. *)
Definition secret_exists : Exception :=
  ClientError "ResourceExistsException"
    "The operation failed because the secret already exists."
    "An error occurred (ResourceExistsException) when calling the CreateSecret operation".

Definition backend_secret_exists : list ApiCall -> ApiCall -> option Exception :=
  fun _ c =>
    match c with
    | secrets_create_secret _ _ _ => Some secret_exists
    | _ => None
    end.

(** A request with a role that has no policy mapping. *)
Definition intern : UserRequest.t :=
  UserRequest.make "intern1" "intern1@company.com" "Support" "Employee"
    "Ira" "Intern" None.

(** A row without a username column. *)
Definition row_without_username : Row :=
  [ ("email", "nobody@company.com"); ("department", "IT"); ("role", "Developer") ].

(** *** Vocabulary of partial progress *)











End ProvisionerSpec.

(** * Properties of the compliance audit *)

Section AuditProperties.

Import Audit AuditSpec.

Lemma ComplianceStatus_eqb_true (a b : ComplianceStatus) :
  ComplianceStatus_eqb a b = true <-> a = b.
Proof. destruct a, b; simpl; split; congruence. Qed.

(** The comprehension of [_generate_report] counts the occurrences of a
    status among the statuses of the findings. *)
Lemma count_status_count_occ (st : ComplianceStatus) (fs : list Finding.t) :
  count_status st fs = count_occ ComplianceStatus_eq_dec (map Finding.status fs) st.
Proof.
  unfold count_status.
  induction fs as [|f fs IH]; simpl; [reflexivity|].
  destruct (ComplianceStatus_eq_dec (Finding.status f) st) as [E|E].
  - apply ComplianceStatus_eqb_true in E. rewrite E. simpl. now rewrite IH.
  - destruct (ComplianceStatus_eqb (Finding.status f) st) eqn:B.
    + apply ComplianceStatus_eqb_true in B. contradiction.
    + exact IH.
Qed.

(** C1. The report's compliance score is
    [(total_findings - non_compliant_count) / max(total_findings, 1) * 100]
    in binary64 arithmetic, where every finding of the list counts as a
    check, whatever its status; for a list of two findings, one
    NON_COMPLIANT and one COMPLIANT in either order, it is exactly 50.0. *)
Theorem generate_report_compliance_score :
  forall (utcnow : nat -> datetime) (total_users : nat) (s : State),
    let fs := findings (self s) in
    let report := fst (_generate_report utcnow total_users s) in
    let total_findings := List.length fs in
    let non_compliant_count :=
      count_occ ComplianceStatus_eq_dec (map Finding.status fs) NON_COMPLIANT in
    AuditReport.total_findings report = total_findings
    /\ AuditReport.findings report = fs
    /\ AuditReport.compliance_score report
       = PrimFloat.mul
           (PrimFloat.div (Py.float_of_nat (total_findings - non_compliant_count))
                          (Py.float_of_nat (Nat.max total_findings 1)))
           100%float
    /\ (forall f1 f2 : Finding.t,
          fs = [f1; f2] ->
          (Finding.status f1 = NON_COMPLIANT /\ Finding.status f2 = COMPLIANT)
          \/ (Finding.status f1 = COMPLIANT /\ Finding.status f2 = NON_COMPLIANT) ->
          AuditReport.compliance_score report = 50%float).
Proof.
  intros utcnow total_users s fs report total_findings non_compliant_count.
  assert (Hscore :
    AuditReport.compliance_score report
    = PrimFloat.mul
        (PrimFloat.div (Py.float_of_nat (total_findings - non_compliant_count))
                       (Py.float_of_nat (Nat.max total_findings 1)))
        100%float).
  { unfold report, _generate_report, bind, get_self, now, ret. simpl.
    rewrite count_status_count_occ. reflexivity. }
  repeat split; try exact Hscore; try reflexivity.
  intros f1 f2 Hfs Hst. rewrite Hscore.
  unfold total_findings, non_compliant_count. rewrite Hfs. simpl.
  destruct Hst as [[H1 H2]|[H1 H2]]; rewrite H1, H2; simpl;
    repeat match goal with
           | |- context [ComplianceStatus_eq_dec ?a ?b] =>
               destruct (ComplianceStatus_eq_dec a b); try congruence
           end;
    vm_compute; reflexivity.
Qed.

Lemma check_access_key_age_loop (utcnow : nat -> datetime) (username : string) :
  forall (keys : list AccessKey) (s : State),
    let active := filter (fun k => String.eqb (Status k) "Active") keys in
    let examined :=
      combine active (map utcnow (seq (clock_reads s) (List.length active))) in
    let offending := filter (fun kt => (90 <? key_age kt)%Z) examined in
    snd (for_each keys
           (fun key =>
              if negb (String.eqb (Status key) "Active") then ret tt
              else
                let create_date := CreateDate key in
                t <- now utcnow ;;
                let age_days := days_between t create_date in
                if (age_days >? MAX_ACCESS_KEY_AGE_DAYS)%Z then
                  findings_append (access_key_finding username key age_days)
                else ret tt) s)
    = {| self :=
           {| demo_mode := demo_mode (self s);
              findings :=
                (findings (self s)
                 ++ map (fun kt => access_key_finding username (fst kt) (key_age kt))
                        offending)%list |};
         clock_reads := (clock_reads s + List.length active)%nat |}.
Proof.
  induction keys as [|key rest IH]; intros s; cbv zeta.
  - simpl. rewrite app_nil_r, Nat.add_0_r. destruct s as [[d fs] n]. reflexivity.
  - cbv zeta in IH. cbn [for_each]. unfold bind at 1.
    cbn [filter]. destruct (String.eqb (Status key) "Active") eqn:Hact; cbn [negb].
    + unfold bind at 1. unfold now at 1. cbn [fst snd].
      cbn [List.length seq map combine filter].
      unfold MAX_ACCESS_KEY_AGE_DAYS. rewrite Z.gtb_ltb.
      change (key_age (key, utcnow (clock_reads s)))
        with (days_between (utcnow (clock_reads s)) (CreateDate key)).
      destruct (90 <? days_between (utcnow (clock_reads s)) (CreateDate key))%Z.
      * unfold findings_append at 1. rewrite IH.
        cbn [self clock_reads demo_mode findings map fst snd].
        rewrite <- app_assoc. cbn [app].
        change (key_age (key, utcnow (clock_reads s)))
          with (days_between (utcnow (clock_reads s)) (CreateDate key)).
        f_equal. lia.
      * unfold ret at 1. rewrite IH. cbn [self clock_reads demo_mode findings].
        f_equal. lia.
    + unfold ret at 1. rewrite IH. reflexivity.
Qed.

Lemma filter_none_active (keys : list AccessKey) :
  (forall key, In key keys -> Status key <> "Active") ->
  filter (fun k => String.eqb (Status k) "Active") keys = [].
Proof.
  induction keys as [|k rest IH]; intros H; simpl; [reflexivity|].
  destruct (String.eqb (Status k) "Active") eqn:E.
  - apply String.eqb_eq in E. exfalso. apply (H k); [now left | exact E].
  - apply IH. intros key Hin. apply H. now right.
Qed.

(** C3. [_check_access_key_age] appends exactly one finding, of rule
    CIS-1.4 and severity MEDIUM, for each access key whose status is Active
    and whose age in whole days, at the clock reading taken when the key is
    examined, is strictly above 90, in the order of the keys, and nothing
    else: an active key aged exactly 91 days gives one finding, one aged
    exactly 90 days gives none, and inactive keys give none whatever their
    age. *)
Theorem check_access_key_age_findings :
  forall (utcnow : nat -> datetime) (user : User) (s : State),
    let keys := Py.get_or (AccessKeys user) [] in
    let active := filter (fun k => String.eqb (Status k) "Active") keys in
    let examined :=
      combine active (map utcnow (seq (clock_reads s) (List.length active))) in
    let offending := filter (fun kt => (90 <? key_age kt)%Z) examined in
    let added :=
      map (fun kt => access_key_finding (UserName user) (fst kt) (key_age kt))
          offending in
    let s' := snd (_check_access_key_age utcnow user s) in
    findings (self s') = (findings (self s) ++ added)%list
    /\ List.length added = List.length offending
    /\ (forall f, In f added ->
          Finding.rule_id f = "CIS-1.4" /\ Finding.severity f = MEDIUM
          /\ Finding.status f = NON_COMPLIANT)
    /\ (forall key, keys = [key] -> Status key = "Active" ->
          days_between (utcnow (clock_reads s)) (CreateDate key) = 91 ->
          findings (self s')
          = (findings (self s) ++ [access_key_finding (UserName user) key 91])%list)
    /\ (forall key, keys = [key] -> Status key = "Active" ->
          days_between (utcnow (clock_reads s)) (CreateDate key) = 90 ->
          findings (self s') = findings (self s))
    /\ ((forall key, In key keys -> Status key <> "Active") ->
          findings (self s') = findings (self s)).
Proof.
  intros utcnow user s keys active examined offending added s'.
  assert (Hmain : findings (self s') = (findings (self s) ++ added)%list).
  { unfold s', _check_access_key_age.
    rewrite (check_access_key_age_loop utcnow (UserName user)). reflexivity. }
  split; [exact Hmain|].
  split; [apply length_map|].
  split.
  { intros f Hin. unfold added in Hin. apply in_map_iff in Hin.
    destruct Hin as [kt [<- _]]. repeat split. }
  split; [|split].
  - intros key Hkeys Hact Hage. rewrite Hmain.
    unfold added, offending, examined, active. rewrite Hkeys. cbn [filter].
    apply String.eqb_eq in Hact. rewrite Hact.
    cbn [List.length seq map combine filter]. unfold key_age. cbn [fst snd].
    rewrite Hage. cbn [Z.ltb Z.compare Pos.compare Pos.compare_cont map fst snd].
    rewrite Hage. reflexivity.
  - intros key Hkeys Hact Hage. rewrite Hmain.
    unfold added, offending, examined, active. rewrite Hkeys. cbn [filter].
    apply String.eqb_eq in Hact. rewrite Hact.
    cbn [List.length seq map combine filter]. unfold key_age. cbn [fst snd].
    rewrite Hage. cbn [Z.ltb Z.compare Pos.compare Pos.compare_cont map].
    apply app_nil_r.
  - intros Hinactive. rewrite Hmain.
    unfold added, offending, examined, active.
    rewrite (filter_none_active keys Hinactive). simpl. apply app_nil_r.
Qed.



(** *** Runs of the full audit *)

Lemma steady_ret {A : Type} (a : A) : steady (ret a).
Proof. split; [reflexivity | intros s1 s2 H; split; [reflexivity | exact H]]. Qed.

Lemma steady_bind {A B : Type} (c : M A) (k : A -> M B) :
  steady c -> (forall a, steady (k a)) -> steady (bind c k).
Proof.
  intros [Hc1 Hc2] Hk. split.
  - intros s. unfold bind. specialize (Hc1 s). destruct (c s) as [a s1].
    destruct (Hk a) as [Hk1 _]. rewrite Hk1. exact Hc1.
  - intros s1 s2 H. unfold bind. specialize (Hc2 s1 s2 H).
    destruct (c s1) as [a1 t1], (c s2) as [a2 t2]. simpl in Hc2.
    destruct Hc2 as [-> Ht]. destruct (Hk a2) as [_ Hk2]. now apply Hk2.
Qed.

Lemma steady_for_each {A : Type} (xs : list A) (body : A -> M unit) :
  (forall x, steady (body x)) -> steady (for_each xs body).
Proof.
  intros Hbody. induction xs as [|x rest IH]; simpl.
  - apply steady_ret.
  - apply steady_bind; [apply Hbody | intros _; exact IH].
Qed.

Lemma steady_findings_append (f : Finding.t) : steady (findings_append f).
Proof.
  split; [reflexivity|]. intros s1 s2 H. unfold findings_append. simpl.
  now rewrite H.
Qed.

Lemma steady_findings_assign (l : list Finding.t) : steady (findings_assign l).
Proof.
  split; [reflexivity|]. intros s1 s2 H. unfold findings_assign. simpl.
  now rewrite H.
Qed.

Lemma steady_get_self : steady get_self.
Proof. split; [reflexivity|]. intros s1 s2 H. simpl. now split. Qed.

Lemma steady_now (utcnow : nat -> datetime) (t : datetime) :
  (forall k, utcnow k = t) -> steady (now utcnow).
Proof.
  intros Hfrozen. split; [reflexivity|]. intros s1 s2 H. unfold now. simpl.
  now rewrite !Hfrozen.
Qed.

Ltac steady_step :=
  first
    [ apply steady_ret
    | apply steady_findings_append
    | apply steady_findings_assign
    | apply steady_get_self
    | eapply steady_now; eassumption
    | apply steady_bind; [|intros ?]
    | apply steady_for_each; intros ?
    | match goal with
      | |- steady (if ?b then _ else _) => destruct b
      | |- steady (match ?x with _ => _ end) => destruct x
      end ].

Lemma steady_run_full_audit (utcnow : nat -> datetime) (t : datetime)
    (DEMO_USERS iam_users : list User) :
  (forall k, utcnow k = t) ->
  steady (run_full_audit utcnow DEMO_USERS iam_users).
Proof.
  intros Hfrozen.
  unfold run_full_audit, _get_users, _check_mfa_enabled, _check_access_key_age,
    _check_unused_credentials, _check_multiple_access_keys,
    _check_direct_policy_attachment, _check_admin_privileges,
    _check_password_policy, _check_root_account, _generate_report.
  repeat steady_step.
Qed.

(** The first statement of [run_full_audit] discards the findings held. *)
Lemma run_full_audit_reset (utcnow : nat -> datetime)
    (DEMO_USERS iam_users : list User) (s : State) :
  run_full_audit utcnow DEMO_USERS iam_users s
  = run_full_audit utcnow DEMO_USERS iam_users
      {| self := init (demo_mode (self s)); clock_reads := clock_reads s |}.
Proof.
  unfold run_full_audit. unfold bind at 1. unfold bind at 6.
  unfold findings_assign. reflexivity.
Qed.

(** C10. [run_full_audit] starts from a fresh empty findings list: its
    report and the auditor it leaves do not depend on the findings the
    auditor held before the call, so findings never accumulate across runs;
    and when every clock reading is the same instant, two consecutive runs
    over the same identities give reports with equal findings lists,
    per-severity counts and compliance score. *)
Theorem run_full_audit_fresh_findings :
  forall (utcnow : nat -> datetime) (DEMO_USERS iam_users : list User) (s : State),
    run_full_audit utcnow DEMO_USERS iam_users s
    = run_full_audit utcnow DEMO_USERS iam_users
        {| self := init (demo_mode (self s)); clock_reads := clock_reads s |}
    /\ (forall t : datetime,
          (forall k, utcnow k = t) ->
          let first := run_full_audit utcnow DEMO_USERS iam_users s in
          let second := run_full_audit utcnow DEMO_USERS iam_users (snd first) in
          AuditReport.findings (fst first) = AuditReport.findings (fst second)
          /\ AuditReport.total_findings (fst first)
             = AuditReport.total_findings (fst second)
          /\ AuditReport.critical_count (fst first)
             = AuditReport.critical_count (fst second)
          /\ AuditReport.high_count (fst first) = AuditReport.high_count (fst second)
          /\ AuditReport.medium_count (fst first)
             = AuditReport.medium_count (fst second)
          /\ AuditReport.low_count (fst first) = AuditReport.low_count (fst second)
          /\ AuditReport.compliance_score (fst first)
             = AuditReport.compliance_score (fst second)).
Proof.
  intros utcnow DEMO_USERS iam_users s. split.
  - apply run_full_audit_reset.
  - intros t Hfrozen first second.
    assert (Hsame : fst first = fst second).
    { destruct (steady_run_full_audit utcnow t DEMO_USERS iam_users Hfrozen)
        as [Hmode Hrel].
      unfold second. rewrite (run_full_audit_reset _ _ _ (snd first)).
      unfold first at 2. rewrite Hmode.
      unfold first. rewrite (run_full_audit_reset _ _ _ s).
      apply Hrel. reflexivity. }
    rewrite Hsame. repeat split.
Qed.

(** *** Evaluations *)

(** C1, on the two findings of the test suite. *)
Lemma generate_report_compliance_score_example :
  AuditReport.compliance_score
    (fst (_generate_report (frozen noon) 5
            {| self := {| demo_mode := true; findings := test_findings |};
               clock_reads := 0 |}))
  = 50%float.
Proof.
  destruct (generate_report_compliance_score (frozen noon) 5
              {| self := {| demo_mode := true; findings := test_findings |};
                 clock_reads := 0 |}) as [_ [_ [_ Hfifty]]].
  apply (Hfifty _ _ eq_refl). left. split; reflexivity.
Defined.

(** C3, on a key created 91 days and one hour before the check. *)
Lemma check_access_key_age_example :
  findings (self (snd (_check_access_key_age (frozen noon) (old_key_user 91)
                         (fresh true))))
  = [access_key_finding "old_key_user" (key_created 91) 91].
Proof.
  destruct (check_access_key_age_findings (frozen noon) (old_key_user 91) (fresh true))
    as [_ [_ [_ [Hninety_one _]]]].
  exact (Hninety_one (key_created 91) eq_refl eq_refl eq_refl).
Defined.

(** C10, on the demo fixture with the clock standing at noon: two runs in
    a row report the same thirteen findings. *)
Lemma run_full_audit_twice_example :
  let first := run_full_audit (frozen noon) (DEMO_USERS_at noon) [] (fresh true) in
  let second :=
    run_full_audit (frozen noon) (DEMO_USERS_at noon) [] (snd first) in
  List.length (AuditReport.findings (fst first)) = 13%nat
  /\ AuditReport.findings (fst first) = AuditReport.findings (fst second)
  /\ AuditReport.compliance_score (fst first)
     = AuditReport.compliance_score (fst second).
Proof.
  cbv zeta. split; [vm_compute; reflexivity|].
  destruct (run_full_audit_fresh_findings (frozen noon) (DEMO_USERS_at noon) []
              (fresh true)) as [_ Htwice].
  destruct (Htwice noon (fun k => eq_refl)) as [Hfindings [_ [_ [_ [_ [_ Hscore]]]]]].
  split; [exact Hfindings | exact Hscore].
Defined.

End AuditProperties.

(** * Properties of the provisioner *)

Section ProvisionerProperties.

Import Provisioner ProvisionerSpec.

(** *** Request validation *)

Lemma truthy_true (s : string) : Py.truthy s = true <-> s <> "".
Proof. destruct s; simpl; split; congruence. Qed.

Lemma prefix_at_sign (s : string) :
  prefix "@" s = true <-> exists rest, s = String "@"%char rest.
Proof.
  destruct s as [|c rest]; cbn [prefix].
  - split; [discriminate | intros [r H]; discriminate].
  - destruct (Ascii.ascii_dec "@"%char c) as [E|E].
    + subst c. split; [intros _; now exists rest | intros _; now destruct rest].
    + split; [discriminate | intros [r H]; congruence].
Qed.

(** ["@" in s] holds exactly when the character occurs in [s]. *)
Lemma str_in_at_sign (s : string) :
  Py.str_in "@" s = true <-> In "@"%char (list_ascii_of_string s).
Proof.
  induction s as [|c rest IH].
  - simpl. split; [discriminate | tauto].
  - cbn [Py.str_in list_ascii_of_string In]. rewrite orb_true_iff, IH, prefix_at_sign.
    split.
    + intros [[r H]|H]; [left; congruence | now right].
    + intros [H|H]; [left; exists rest; now subst | now right].
Qed.

(** On a string of ASCII characters [len] is the number of bytes. *)
Lemma len_ascii (s : string) :
  Forall (fun c => (nat_of_ascii c < 128)%nat) (list_ascii_of_string s) ->
  Py.len s = String.length s.
Proof.
  induction s as [|c rest IH]; [reflexivity|].
  cbn [list_ascii_of_string Py.len String.length]. intros H.
  inversion H as [|c' l' Hc Hrest]; subst. rewrite (IH Hrest).
  destruct c as [b0 b1 b2 b3 b4 b5 b6 [|]]; [|reflexivity].
  exfalso. revert Hc.
  destruct b0, b1, b2, b3, b4, b5, b6; vm_compute; lia.
Qed.

(** C4. [validate] returns True exactly when username, email, department
    and role are non-empty, the email contains an at sign and the username
    has between 3 and 64 characters (code points, as [len] counts them: an
    accented letter is one character, though two bytes); so usernames of
    length 2 and 65 fail, usernames of length 3 and 64 pass when the other
    fields are well formed, and an email without an at sign fails whatever
    the other fields.  On an ASCII username the length is the number of
    bytes. *)
Theorem validate_iff :
  (forall r : UserRequest.t,
     UserRequest.validate r = true <->
     UserRequest.username r <> "" /\ UserRequest.email r <> ""
     /\ UserRequest.department r <> "" /\ UserRequest.role r <> ""
     /\ In "@"%char (list_ascii_of_string (UserRequest.email r))
     /\ (3 <= Py.len (UserRequest.username r) <= 64)%nat)
  /\ (forall r : UserRequest.t,
        Py.len (UserRequest.username r) = 2%nat
        \/ Py.len (UserRequest.username r) = 65%nat ->
        UserRequest.validate r = false)
  /\ (forall r : UserRequest.t,
        Py.len (UserRequest.username r) = 3%nat
        \/ Py.len (UserRequest.username r) = 64%nat ->
        UserRequest.email r <> "" ->
        In "@"%char (list_ascii_of_string (UserRequest.email r)) ->
        UserRequest.department r <> "" -> UserRequest.role r <> "" ->
        UserRequest.validate r = true)
  /\ (forall r : UserRequest.t,
        ~ In "@"%char (list_ascii_of_string (UserRequest.email r)) ->
        UserRequest.validate r = false)
  /\ (forall r : UserRequest.t,
        Forall (fun c => (nat_of_ascii c < 128)%nat)
          (list_ascii_of_string (UserRequest.username r)) ->
        UserRequest.validate r = true <->
        UserRequest.username r <> "" /\ UserRequest.email r <> ""
        /\ UserRequest.department r <> "" /\ UserRequest.role r <> ""
        /\ In "@"%char (list_ascii_of_string (UserRequest.email r))
        /\ (3 <= String.length (UserRequest.username r) <= 64)%nat)
  /\ UserRequest.validate (named (accented 2)) = false
  /\ UserRequest.validate (named (accented 3)) = true
  /\ UserRequest.validate (named (accented 33)) = true
  /\ UserRequest.validate (named (accented 64)) = true
  /\ UserRequest.validate (named (accented 65)) = false.
Proof.
  assert (Hiff : forall r : UserRequest.t,
     UserRequest.validate r = true <->
     UserRequest.username r <> "" /\ UserRequest.email r <> ""
     /\ UserRequest.department r <> "" /\ UserRequest.role r <> ""
     /\ In "@"%char (list_ascii_of_string (UserRequest.email r))
     /\ (3 <= Py.len (UserRequest.username r) <= 64)%nat).
  { intros r. unfold UserRequest.validate, Py.all. cbn [forallb].
    rewrite <- !truthy_true, <- str_in_at_sign.
    destruct (Nat.ltb_spec (Py.len (UserRequest.username r)) 3) as [Hlo|Hlo];
      destruct (Nat.ltb_spec 64 (Py.len (UserRequest.username r))) as [Hhi|Hhi];
      destruct (Py.truthy (UserRequest.username r)),
        (Py.truthy (UserRequest.email r)),
        (Py.truthy (UserRequest.department r)),
        (Py.truthy (UserRequest.role r)),
        (Py.str_in "@" (UserRequest.email r)); cbn [andb negb orb];
      (split;
       [ try discriminate; intros _; repeat split; (reflexivity || lia)
       | intros H; first [reflexivity | decompose [and] H; (discriminate || lia)]]). }
  split; [exact Hiff|]. split; [|split; [|split; [|split]]].
  - intros r Hlen. destruct (UserRequest.validate r) eqn:E; [|reflexivity].
    apply Hiff in E. decompose [and] E. lia.
  - intros r Hlen He Hat Hd Hr. apply Hiff.
    assert (UserRequest.username r <> "").
    { intros E. rewrite E in Hlen. simpl in Hlen. lia. }
    repeat split; auto; lia.
  - intros r Hat. destruct (UserRequest.validate r) eqn:E; [|reflexivity].
    apply Hiff in E. decompose [and] E. contradiction.
  - intros r Hascii. rewrite <- (len_ascii _ Hascii). apply Hiff.
  - repeat split; vm_compute; reflexivity.
Qed.

(** *** The decorators *)

(** An exception is a throttling signal when it is a [ClientError] whose
    code is Throttling or RequestLimitExceeded. *)
Lemma is_throttle_iff (e : Exception) :
  isinstance_ClientError e && is_throttle e = true <-> throttling e.
Proof.
  unfold throttling, is_throttle, Py.str_mem. destruct e as [code m t| | |]; simpl.
  - rewrite !orb_true_iff, !String.eqb_eq. split.
    + intros [H|[H|H]]; [left | right | discriminate]; exists m, t; now subst.
    + intros [[m' [t' H]]|[m' [t' H]]]; injection H as -> _ _; auto.
  - split; [discriminate | intros [[m [t H]]|[m [t H]]]; discriminate].
  - split; [discriminate | intros [[m [t H]]|[m [t H]]]; discriminate].
  - split; [discriminate | intros [[m [t H]]|[m [t H]]]; discriminate].
Qed.

Lemma retry_loop_returns {A : Type} (max_retries : nat) (base_delay : Q)
    (func : M A) (remaining attempt : nat) (s s' : State) (v : A) :
  func s = (inr v, s') ->
  retry_loop max_retries base_delay func (S remaining) attempt s = (inr (Some v), s').
Proof. intros H. cbn [retry_loop]. now rewrite H. Qed.

Lemma retry_loop_propagates {A : Type} (max_retries : nat) (base_delay : Q)
    (func : M A) (remaining attempt : nat) (s s' : State) (e : Exception) :
  func s = (inl e, s') -> ~ throttling e ->
  retry_loop max_retries base_delay func (S remaining) attempt s = (inl e, s').
Proof.
  intros H Hno. cbn [retry_loop]. rewrite H.
  destruct (isinstance_ClientError e) eqn:Hc; [|reflexivity].
  destruct (is_throttle e) eqn:Ht; [|reflexivity].
  exfalso. apply Hno. apply is_throttle_iff. now rewrite Hc, Ht.
Qed.

Lemma retry_loop_last {A : Type} (max_retries : nat) (base_delay : Q)
    (func : M A) (remaining attempt : nat) (s s' : State) (e : Exception) :
  func s = (inl e, s') -> (max_retries - 1 <= attempt)%nat ->
  retry_loop max_retries base_delay func (S remaining) attempt s = (inl e, s').
Proof.
  intros H Hlast. cbn [retry_loop]. rewrite H.
  destruct (isinstance_ClientError e); [|reflexivity].
  destruct (is_throttle e); [|reflexivity].
  destruct (Nat.ltb_spec attempt (max_retries - 1)); [lia | reflexivity].
Qed.

Lemma retry_loop_retries {A : Type} (max_retries : nat) (base_delay : Q)
    (func : M A) (remaining attempt : nat) (s s' : State) (e : Exception) :
  func s = (inl e, s') -> throttling e -> (attempt < max_retries - 1)%nat ->
  retry_loop max_retries base_delay func (S remaining) attempt s
  = retry_loop max_retries base_delay func remaining (S attempt)
      (slept (base_delay * inject_Z (2 ^ Z.of_nat attempt))%Q s').
Proof.
  intros H Hthr Hlt. cbn [retry_loop]. rewrite H.
  apply is_throttle_iff in Hthr. apply andb_true_iff in Hthr. destruct Hthr as [-> ->].
  destruct (Nat.ltb_spec attempt (max_retries - 1)); [reflexivity | lia].
Qed.

(** C9. With the default bound of three attempts, the retry wrapper
    returns the value of the first attempt that succeeds, unchanged;
    propagates at once, without sleeping or calling the step again, a
    failure that is not a throttling signal; after a throttling failure of
    attempt 0 or 1 sleeps [base_delay * 2^attempt] and calls the step again;
    and propagates untouched the failure of the third attempt, throttling or
    not, without sleeping. *)
Theorem retry_on_throttle_three_attempts :
  forall (A : Type) (base_delay : Q) (func : M A) (s : State),
    let wrapped := retry_on_throttle 3 base_delay func in
    let delay (attempt : Z) := (base_delay * inject_Z (2 ^ attempt))%Q in
    (forall v s1, func s = (inr v, s1) -> wrapped s = (inr (Some v), s1))
    /\ (forall e s1, func s = (inl e, s1) -> ~ throttling e ->
          wrapped s = (inl e, s1))
    /\ (forall e1 s1, func s = (inl e1, s1) -> throttling e1 ->
          (forall v s2, func (slept (delay 0) s1) = (inr v, s2) ->
             wrapped s = (inr (Some v), s2))
          /\ (forall e s2, func (slept (delay 0) s1) = (inl e, s2) ->
                ~ throttling e -> wrapped s = (inl e, s2))
          /\ (forall e2 s2, func (slept (delay 0) s1) = (inl e2, s2) ->
                throttling e2 ->
                (forall v s3, func (slept (delay 1) s2) = (inr v, s3) ->
                   wrapped s = (inr (Some v), s3))
                /\ (forall e3 s3, func (slept (delay 1) s2) = (inl e3, s3) ->
                      wrapped s = (inl e3, s3)))).
Proof.
  intros A base_delay func s wrapped delay. unfold wrapped, retry_on_throttle.
  split; [|split].
  - intros v s1 H. now apply retry_loop_returns.
  - intros e s1 H Hno. now apply retry_loop_propagates.
  - intros e1 s1 H1 Hthr1.
    rewrite (retry_loop_retries _ _ _ _ _ _ _ _ H1 Hthr1) by (simpl; lia).
    change (base_delay * inject_Z (2 ^ Z.of_nat 0))%Q with (delay 0).
    split; [|split].
    + intros v s2 H. now apply retry_loop_returns.
    + intros e s2 H Hno. now apply retry_loop_propagates.
    + intros e2 s2 H2 Hthr2.
      rewrite (retry_loop_retries _ _ _ _ _ _ _ _ H2 Hthr2) by (simpl; lia).
      change (base_delay * inject_Z (2 ^ Z.of_nat 1))%Q with (delay 1).
      split.
      * intros v s3 H. now apply retry_loop_returns.
      * intros e3 s3 H. apply retry_loop_last; [exact H | simpl; lia].
Qed.

(** *** The orchestrator *)

(** [create_user] never raises from its body, so the decorators hand its
    result on at the first attempt. *)
Lemma create_user_of_body (respond : list ApiCall -> ApiCall -> option Exception)
    (entropy : nat -> nat) (request : UserRequest.t) (s s' : State)
    (r : ProvisioningResult.t) :
  create_user_body respond entropy request s = (inr r, s') ->
  create_user respond entropy request s = (inr (Some r), s').
Proof.
  intros H. unfold create_user, audit_log, retry_on_throttle.
  rewrite (retry_loop_returns _ _ _ _ _ _ _ _ H). reflexivity.
Qed.

(** C5. For a request that fails validation [create_user] returns the
    failure result with message "Validation failed" and empty group and
    policy lists, and leaves the state as it was: no call is issued to IAM,
    Secrets Manager or SNS, no random character is drawn, nothing is slept
    and no result is recorded. *)
Theorem create_user_validation_failure :
  forall (respond : list ApiCall -> ApiCall -> option Exception)
         (entropy : nat -> nat) (request : UserRequest.t) (s : State),
    UserRequest.validate request = false ->
    create_user respond entropy request s
    = (inr (Some (ProvisioningResult.make (UserRequest.username request) false
                    "Validation failed" [] [] None)),
       s).
Proof.
  intros respond entropy request s Hinvalid.
  apply create_user_of_body. unfold create_user_body. now rewrite Hinvalid.
Qed.


(** *** What the steps leave untouched *)

Section Preservation.

Variable respond : list ApiCall -> ApiCall -> option Exception.
Variable entropy : nat -> nat.

(** A relation between the state before and after a computation, that the
    primitive effects of the steps satisfy. *)
Variable P : State -> State -> Prop.
Hypothesis P_refl : forall s, P s s.
Hypothesis P_trans : forall s1 s2 s3, P s1 s2 -> P s2 s3 -> P s1 s3.
Hypothesis P_api : forall c s, P s (snd (api respond c s)).
Hypothesis P_choice : forall seq s, P s (snd (choice entropy seq s)).

Lemma pres_ret {A : Type} (a : A) : pres P (ret a).
Proof. intros s. apply P_refl. Qed.

Lemma pres_raise {A : Type} (e : Exception) : pres P (@raise A e).
Proof. intros s. apply P_refl. Qed.

Lemma pres_get_self : pres P get_self.
Proof. intros s. apply P_refl. Qed.

Lemma pres_bind {A B : Type} (c : M A) (k : A -> M B) :
  pres P c -> (forall a, pres P (k a)) -> pres P (bind c k).
Proof.
  intros Hc Hk s. unfold bind. specialize (Hc s).
  destruct (c s) as [[e|a] s1]; simpl in *; [exact Hc|].
  eapply P_trans; [exact Hc | apply Hk].
Qed.

Lemma pres_try_step {A B : Type} (c : M A) (handler : Exception -> M B)
    (k : A -> M B) :
  pres P c -> (forall e, pres P (handler e)) -> (forall a, pres P (k a)) ->
  pres P (try_step c handler k).
Proof.
  intros Hc Hh Hk s. unfold try_step. specialize (Hc s).
  destruct (c s) as [[e|a] s1]; simpl in *;
    (eapply P_trans; [exact Hc | first [apply Hh | apply Hk]]).
Qed.

Lemma pres_index (str : string) (i : nat) : pres P (index str i).
Proof. unfold index. destruct (String.get i str); [apply pres_ret | apply pres_raise]. Qed.

Ltac pres_step :=
  first
    [ apply pres_ret | apply pres_raise | apply pres_get_self | apply pres_index
    | (let st := fresh "st" in intros st; apply P_api)
    | (let st := fresh "st" in intros st; apply P_choice)
    | apply pres_bind; [|intros ?]
    | apply pres_try_step; [|intros ?|intros ?]
    | match goal with
      | |- pres P (if ?b then _ else _) => destruct b
      | |- pres P (match ?x with _ => _ end) => destruct x
      end ].

Lemma pres_create_iam_user (request : UserRequest.t) :
  pres P (_create_iam_user respond request).
Proof. unfold _create_iam_user. repeat pres_step. Qed.

Lemma pres_assign_loop (request : UserRequest.t) :
  forall (fuel i : nat) (groups : list string),
    pres P (assign_loop respond fuel request i groups).
Proof.
  induction fuel as [|fuel IH]; intros i groups; cbn [assign_loop].
  - apply pres_ret.
  - destruct (nth_error groups i); [|apply pres_ret].
    apply pres_bind; [apply pres_get_self|]. intros a.
    destruct (demo_mode a); [apply IH|].
    apply pres_try_step.
    + intros st. apply P_api.
    + intros e. destruct (isinstance_ClientError e); [|apply pres_raise].
      destruct (String.eqb (error_code e) "NoSuchEntity"); [apply IH | apply pres_raise].
    + intros _. apply IH.
Qed.

Lemma pres_assign_groups (request : UserRequest.t) :
  pres P (_assign_groups respond request).
Proof. unfold _assign_groups. apply pres_assign_loop. Qed.

Lemma pres_attach_loop (request : UserRequest.t) (policies : list string) :
  pres P (attach_loop respond request policies).
Proof.
  induction policies as [|p rest IH]; cbn [attach_loop].
  - apply pres_ret.
  - repeat pres_step. exact IH.
Qed.

Lemma pres_attach_policies (request : UserRequest.t) :
  pres P (_attach_policies respond request).
Proof.
  unfold _attach_policies.
  destruct (Py.dict_get ROLE_POLICIES (UserRequest.role request));
    [|apply pres_ret].
  apply pres_bind; [apply pres_attach_loop | intros _; apply pres_ret].
Qed.

Lemma pres_join_choices (n : nat) (alphabet : string) :
  pres P (join_choices entropy n alphabet).
Proof.
  induction n as [|n IH]; cbn [join_choices].
  - apply pres_ret.
  - apply pres_bind; [intros s; apply P_choice|]. intros c.
    apply pres_bind; [exact IH | intros r; apply pres_ret].
Qed.

Lemma pres_generate_password : pres P (_generate_password entropy).
Proof.
  unfold _generate_password.
  apply pres_bind; [apply pres_join_choices|]. intros p0.
  repeat pres_step.
Qed.

Lemma pres_set_login_profile (username password : string) :
  pres P (_set_login_profile respond username password).
Proof. unfold _set_login_profile. repeat pres_step. Qed.

Lemma pres_store_credentials (request : UserRequest.t) (password : string) :
  pres P (_store_credentials respond request password).
Proof. unfold _store_credentials. repeat pres_step. Qed.

Lemma pres_send_notification (request : UserRequest.t) (creds_location : string) :
  pres P (_send_notification respond request creds_location).
Proof. unfold _send_notification. repeat pres_step. Qed.

Lemma pres_except_clauses (request : UserRequest.t)
    (groups_assigned policies_attached : list string) (e : Exception) :
  pres P (except_clauses request groups_assigned policies_attached e).
Proof. unfold except_clauses. repeat pres_step. Qed.

(** The whole body, given that recording a result is allowed too. *)
Lemma pres_create_user_body (request : UserRequest.t) :
  (forall r s, P s (snd (provisioned_users_append r s))) ->
  pres P (create_user_body respond entropy request).
Proof.
  intros Happend. unfold create_user_body.
  destruct (negb (UserRequest.validate request)); [apply pres_ret|].
  repeat first
    [ apply pres_except_clauses
    | apply pres_create_iam_user | apply pres_assign_groups
    | apply pres_attach_policies | apply pres_generate_password
    | apply pres_set_login_profile | apply pres_store_credentials
    | apply pres_send_notification
    | apply pres_ret
    | (let st := fresh "st" in intros st; apply Happend)
    | apply pres_bind; [|intros ?]
    | apply pres_try_step; [|intros ?|intros ?] ].
Qed.

End Preservation.


Lemma keeps_self_trans (s1 s2 s3 : State) :
  keeps_self s1 s2 -> keeps_self s2 s3 -> keeps_self s1 s3.
Proof. unfold keeps_self. congruence. Qed.

Lemma keeps_self_api (respond : list ApiCall -> ApiCall -> option Exception)
    (c : ApiCall) (s : State) : keeps_self s (snd (api respond c s)).
Proof. unfold keeps_self, api. destruct (respond (calls (world s)) c); reflexivity. Qed.

Lemma keeps_self_choice (entropy : nat -> nat) (seq : string) (s : State) :
  keeps_self s (snd (choice entropy seq s)).
Proof.
  unfold keeps_self, choice.
  destruct (String.get (entropy (draws (world s)) mod String.length seq)%nat seq);
    reflexivity.
Qed.

Lemma calls_grow_refl (s : State) : calls_grow s s.
Proof. exists []. now rewrite app_nil_r. Qed.

Lemma calls_grow_trans (s1 s2 s3 : State) :
  calls_grow s1 s2 -> calls_grow s2 s3 -> calls_grow s1 s3.
Proof.
  intros [x1 H1] [x2 H2]. exists (x1 ++ x2)%list. now rewrite H2, H1, app_assoc.
Qed.

Lemma calls_grow_api (respond : list ApiCall -> ApiCall -> option Exception)
    (c : ApiCall) (s : State) : calls_grow s (snd (api respond c s)).
Proof. exists [c]. unfold api. destruct (respond (calls (world s)) c); reflexivity. Qed.

Lemma calls_grow_choice (entropy : nat -> nat) (seq : string) (s : State) :
  calls_grow s (snd (choice entropy seq s)).
Proof.
  exists []. unfold choice.
  destruct (String.get (entropy (draws (world s)) mod String.length seq)%nat seq);
    cbn; now rewrite app_nil_r.
Qed.

(** Every exception ends in a failure result that carries the lists handed
    to the [except] clauses, and the clauses touch nothing. *)
Lemma except_clauses_failed (request : UserRequest.t)
    (groups_assigned policies_attached : list string) (e : Exception) (s : State) :
  exists message,
    except_clauses request groups_assigned policies_attached e s
    = (inr (ProvisioningResult.make (UserRequest.username request) false message
              groups_assigned policies_attached None), s).
Proof. destruct e; cbn; eexists; reflexivity. Qed.

(** The body of [create_user] always returns a result. *)
Lemma create_user_body_returns
    (respond : list ApiCall -> ApiCall -> option Exception) (entropy : nat -> nat)
    (request : UserRequest.t) (s : State) :
  exists r, create_user_body respond entropy request s
            = (inr r, snd (create_user_body respond entropy request s)).
Proof.
  unfold create_user_body.
  destruct (negb (UserRequest.validate request)); [eexists; reflexivity|].
  unfold try_step.
  destruct (_create_iam_user respond request s) as [[e|u] s1];
    [destruct (except_clauses_failed request [] [] e s1) as [m ->]; eexists; reflexivity|].
  destruct (_assign_groups respond request s1) as [[e|g] s2];
    [destruct (except_clauses_failed request [] [] e s2) as [m ->]; eexists; reflexivity|].
  destruct (_attach_policies respond request s2) as [[e|p] s3];
    [destruct (except_clauses_failed request g [] e s3) as [m ->]; eexists; reflexivity|].
  destruct (_generate_password entropy s3) as [[e|pw] s4];
    [destruct (except_clauses_failed request g p e s4) as [m ->]; eexists; reflexivity|].
  destruct (_set_login_profile respond (UserRequest.username request) pw s4) as [[e|u5] s5];
    [destruct (except_clauses_failed request g p e s5) as [m ->]; eexists; reflexivity|].
  destruct (_store_credentials respond request pw s5) as [[e|loc] s6];
    [destruct (except_clauses_failed request g p e s6) as [m ->]; eexists; reflexivity|].
  destruct (_send_notification respond request loc s6) as [[e|u7] s7];
    [destruct (except_clauses_failed request g p e s7) as [m ->]; eexists; reflexivity|].
  eexists; reflexivity.
Qed.

Lemma create_user_calls_grow
    (respond : list ApiCall -> ApiCall -> option Exception) (entropy : nat -> nat)
    (request : UserRequest.t) (s : State) :
  calls_grow s (snd (create_user respond entropy request s)).
Proof.
  destruct (create_user_body_returns respond entropy request s) as [r Hr].
  rewrite (create_user_of_body _ _ _ _ _ _ Hr). cbn [snd].
  apply (pres_create_user_body respond entropy calls_grow calls_grow_refl
           calls_grow_trans (calls_grow_api respond) (calls_grow_choice entropy)).
  intros r' s'. exists []. cbn. now rewrite app_nil_r.
Qed.

Ltac fails_with Hvalid req g p e st :=
  let m := fresh "m" in
  let Hm := fresh "Hm" in
  destruct (except_clauses_failed req g p e st) as [m Hm];
  exists m; apply create_user_of_body;
  unfold create_user_body; rewrite Hvalid; cbn [negb]; unfold try_step;
  repeat match goal with
         | E : ?c = (_, _) |- context [?c] => rewrite E; cbv beta iota
         end;
  reflexivity.

(** For a request that passes validation, when a step fails the failure
    result carries the lists the completed steps returned, and the state is
    the one in which the failing step stopped. *)
Lemma create_user_failure_stages :
  forall (respond : list ApiCall -> ApiCall -> option Exception)
         (entropy : nat -> nat) (request : UserRequest.t) (s : State),
    UserRequest.validate request = true ->
    let username := UserRequest.username request in
    let failure (groups policies : list string) (st : State) :=
      exists message,
        create_user respond entropy request s
        = (inr (Some (ProvisioningResult.make username false message
                        groups policies None)), st) in
    calls_grow s (snd (create_user respond entropy request s))
    /\ (forall e s1, _create_iam_user respond request s = (inl e, s1) ->
          failure [] [] s1)
    /\ (forall s1, _create_iam_user respond request s = (inr tt, s1) ->
        (forall e s2, _assign_groups respond request s1 = (inl e, s2) ->
           failure [] [] s2)
        /\ (forall groups s2, _assign_groups respond request s1 = (inr groups, s2) ->
            (forall e s3, _attach_policies respond request s2 = (inl e, s3) ->
               failure groups [] s3)
            /\ (forall policies s3,
                  _attach_policies respond request s2 = (inr policies, s3) ->
                (forall e s4, _generate_password entropy s3 = (inl e, s4) ->
                   failure groups policies s4)
                /\ (forall password s4,
                      _generate_password entropy s3 = (inr password, s4) ->
                    (forall e s5,
                       _set_login_profile respond username password s4 = (inl e, s5) ->
                       failure groups policies s5)
                    /\ (forall s5,
                          _set_login_profile respond username password s4
                          = (inr tt, s5) ->
                        (forall e s6,
                           _store_credentials respond request password s5
                           = (inl e, s6) ->
                           failure groups policies s6)
                        /\ (forall location s6,
                              _store_credentials respond request password s5
                              = (inr location, s6) ->
                            forall e s7,
                              _send_notification respond request location s6
                              = (inl e, s7) ->
                              failure groups policies s7)))))).
Proof.
  intros respond entropy request s Hvalid username failure. unfold failure, username.
  split; [apply create_user_calls_grow|].
  split; [intros e s1 H1; fails_with Hvalid request (@nil string) (@nil string) e s1|].
  intros s1 H1.
  split; [intros e s2 H2; fails_with Hvalid request (@nil string) (@nil string) e s2|].
  intros groups s2 H2.
  split; [intros e s3 H3; fails_with Hvalid request groups (@nil string) e s3|].
  intros policies s3 H3.
  split; [intros e s4 H4; fails_with Hvalid request groups policies e s4|].
  intros password s4 H4.
  split; [intros e s5 H5; fails_with Hvalid request groups policies e s5|].
  intros s5 H5.
  split; [intros e s6 H6; fails_with Hvalid request groups policies e s6|].
  intros location s6 H6 e s7 H7.
  fails_with Hvalid request groups policies e s7.
Qed.

(** *** Group assignment: the loop needs no more fuel than it is given *)

Lemma list_remove_length (x : string) (xs : list string) :
  (List.length (list_remove x xs) <= List.length xs)%nat.
Proof.
  induction xs as [|y rest IH]; simpl; [lia|].
  destruct (String.eqb y x); simpl; lia.
Qed.

Lemma assign_loop_fuel (respond : list ApiCall -> ApiCall -> option Exception)
    (request : UserRequest.t) :
  forall (fuel1 fuel2 i : nat) (groups : list string) (s : State),
    (List.length groups - i <= fuel1)%nat ->
    (List.length groups - i <= fuel2)%nat ->
    assign_loop respond fuel1 request i groups s
    = assign_loop respond fuel2 request i groups s.
Proof.
  induction fuel1 as [|fuel1 IH]; intros [|fuel2] i groups s H1 H2;
    cbn [assign_loop]; try reflexivity.
  - assert (Hnone : nth_error groups i = None) by (apply nth_error_None; lia).
    now rewrite Hnone.
  - assert (Hnone : nth_error groups i = None) by (apply nth_error_None; lia).
    now rewrite Hnone.
  - destruct (nth_error groups i) as [group|] eqn:Hnth; [|reflexivity].
    assert (Hlt : (i < List.length groups)%nat)
      by (apply nth_error_Some; congruence).
    pose proof (list_remove_length group groups) as Hrem.
    unfold bind, get_self, try_step.
    destruct (demo_mode (self s)); [apply IH; lia|].
    destruct (api respond (iam_add_user_to_group (UserRequest.username request) group) s)
      as [[e|u] s1].
    + destruct (isinstance_ClientError e); [|reflexivity].
      destruct (String.eqb (error_code e) "NoSuchEntity"); [|reflexivity].
      apply IH; lia.
    + apply IH; lia.
Qed.

(** *** Password generation: what does hold for every draw *)

Lemma append_length (a b : string) :
  String.length (a ++ b) = (String.length a + String.length b)%nat.
Proof. induction a as [|c a IH]; simpl; [reflexivity | now rewrite IH]. Qed.

Lemma slice_from_length (n : nat) (s : string) :
  String.length (slice_from n s) = (String.length s - n)%nat.
Proof.
  revert s. induction n as [|n IH]; intros [|c s]; simpl; try reflexivity.
  apply IH.
Qed.

Lemma slice_to_length (n : nat) (s : string) :
  String.length (slice_to n s) = Nat.min n (String.length s).
Proof.
  revert s. induction n as [|n IH]; intros [|c s]; simpl; try reflexivity.
  now rewrite IH.
Qed.

Lemma get_in_range (s : string) :
  forall i, (i < String.length s)%nat -> exists c, String.get i s = Some c.
Proof.
  induction s as [|c s IH]; intros i Hi; simpl in Hi; [lia|].
  destruct i as [|i]; simpl; [now exists c|]. apply IH. lia.
Qed.

(** [secrets.choice] on a non-empty sequence returns one of its characters
    and consumes one draw. *)
Lemma choice_returns (entropy : nat -> nat) (seq : string) (s : State) :
  seq <> "" ->
  exists c,
    String.get (entropy (draws (world s)) mod String.length seq)%nat seq = Some c
    /\ choice entropy seq s
       = (inr c, {| self := self s;
                    world := {| calls := calls (world s);
                                draws := S (draws (world s));
                                sleeps := sleeps (world s) |} |}).
Proof.
  intros Hne. unfold choice.
  destruct (get_in_range seq (entropy (draws (world s)) mod String.length seq)%nat)
    as [c Hc].
  - apply Nat.mod_upper_bound. destruct seq; [congruence | simpl; lia].
  - exists c. now rewrite Hc.
Qed.

Lemma join_choices_length (entropy : nat -> nat) (alphabet : string) :
  alphabet <> "" ->
  forall (n : nat) (s : State),
    exists p s', join_choices entropy n alphabet s = (inr p, s')
                 /\ String.length p = n.
Proof.
  intros Hne. induction n as [|n IH]; intros s; cbn [join_choices].
  - exists "", s. split; reflexivity.
  - unfold bind. destruct (choice_returns entropy alphabet s Hne) as [c [_ ->]].
    match goal with
    | |- context [join_choices entropy n alphabet ?st] =>
        destruct (IH st) as [p [s' [-> Hlen]]]
    end.
    exists (String c p), s'. split; [reflexivity | simpl; now rewrite Hlen].
Qed.

Lemma digit_choice_isdigit (i : nat) (c : ascii) :
  String.get (i mod String.length digits)%nat digits = Some c -> isdigit c = true.
Proof.
  pose proof (Nat.mod_upper_bound i (String.length digits)) as Hlt.
  change (String.length digits) with 10%nat in *.
  assert (H : (i mod 10 < 10)%nat) by (apply Hlt; lia). clear Hlt.
  remember (i mod 10)%nat as k eqn:Hk. clear Hk.
  do 10 (destruct k as [|k]; [cbn; intros [= <-]; reflexivity|]).
  lia.
Qed.

Lemma any_append (p : ascii -> bool) (a b : string) :
  Py.any p (a ++ b) = Py.any p a || Py.any p b.
Proof.
  induction a as [|c a IH]; simpl; [reflexivity|]. now rewrite IH, orb_assoc.
Qed.

(** The shape of what [_generate_password] returns, used below. *)
Lemma generate_password_shape (entropy : nat -> nat) (s : State) :
  exists password s',
    _generate_password entropy s = (inr password, s')
    /\ String.length password = PASSWORD_LENGTH
    /\ Py.any isdigit password = true.
Proof.
  unfold _generate_password.
  destruct (join_choices_length entropy (ascii_letters ++ digits ++ "!@#$%^&*")
              ltac:(discriminate) PASSWORD_LENGTH s) as [p0 [s0 [H0 L0]]].
  unfold bind at 1. rewrite H0.
  (* the uppercase patch *)
  assert (H1 : exists p1 s1,
             (if negb (Py.any isupper p0)
              then c <- choice entropy ascii_uppercase ;;
                   ret (str_of_char c ++ slice_from 1 p0)
              else ret p0) s0 = (inr p1, s1)
             /\ String.length p1 = PASSWORD_LENGTH).
  { destruct (negb (Py.any isupper p0)).
    - unfold bind.
      destruct (choice_returns entropy ascii_uppercase s0 ltac:(discriminate))
        as [c [_ ->]].
      eexists. eexists. split; [reflexivity|].
      rewrite append_length, slice_from_length, L0. reflexivity.
    - exists p0, s0. now split. }
  destruct H1 as [p1 [s1 [H1 L1]]]. unfold bind at 1. rewrite H1.
  (* the lowercase patch *)
  assert (H2 : exists p2 s2,
             (if negb (Py.any islower p1)
              then c0 <- index p1 0 ;;
                   c <- choice entropy ascii_lowercase ;;
                   ret (str_of_char c0 ++ str_of_char c ++ slice_from 2 p1)
              else ret p1) s1 = (inr p2, s2)
             /\ String.length p2 = PASSWORD_LENGTH).
  { destruct (negb (Py.any islower p1)).
    - unfold bind, index.
      destruct (get_in_range p1 0) as [c0 ->];
        [rewrite L1; unfold PASSWORD_LENGTH; lia|].
      unfold ret at 1.
      destruct (choice_returns entropy ascii_lowercase s1 ltac:(discriminate))
        as [c [_ ->]].
      eexists. eexists. split; [reflexivity|].
      rewrite !append_length, slice_from_length, L1. reflexivity.
    - exists p1, s1. now split. }
  destruct H2 as [p2 [s2 [H2 L2]]]. unfold bind at 1. rewrite H2.
  (* the digit patch *)
  unfold bind at 1.
  destruct (Py.any isdigit p2) eqn:Hd; cbn [negb].
  - exists p2, s2. unfold ret. repeat split; assumption.
  - unfold bind.
    destruct (choice_returns entropy digits s2 ltac:(discriminate)) as [c [Hc ->]].
    eexists. eexists. split; [reflexivity|]. split.
    + rewrite !append_length, slice_from_length, slice_to_length, L2. reflexivity.
    + rewrite !any_append. cbn [str_of_char Py.any].
      rewrite (digit_choice_isdigit _ _ Hc). cbn. apply orb_true_r.
Qed.

(** X1. [_generate_password] always returns, and what it returns always has
    [PASSWORD_LENGTH] characters and a digit among them. *)
Theorem generate_password_length_and_digit :
  forall (entropy : nat -> nat) (s : State),
    exists password s',
      _generate_password entropy s = (inr password, s')
      /\ String.length password = PASSWORD_LENGTH
      /\ Py.any isdigit password = true.
Proof. intros entropy s. apply generate_password_shape. Qed.

(** *** The recorded results are the successes *)

Lemma create_user_body_records (respond : list ApiCall -> ApiCall -> option Exception)
    (entropy : nat -> nat) (request : UserRequest.t) (s : State) :
  let outcome := create_user_body respond entropy request s in
  demo_mode (self (snd outcome)) = demo_mode (self s)
  /\ forall r, fst outcome = inr r ->
       provisioned_users (self (snd outcome))
       = (provisioned_users (self s)
          ++ (if ProvisioningResult.success r then [r] else []))%list.
Proof.
  cbv zeta. unfold create_user_body.
  destruct (negb (UserRequest.validate request)).
  { split; [reflexivity|]. intros r [= <-]. simpl. now rewrite app_nil_r. }
  unfold try_step.
  assert (Hkeep : forall (A : Type) (c : M A) (s0 : State) out s1,
             pres keeps_self c -> c s0 = (out, s1) -> self s1 = self s0).
  { intros A c s0 out s1 Hp E. specialize (Hp s0). now rewrite E in Hp. }
  assert (Hfail : forall g p e s1,
             self s1 = self s ->
             let outcome := except_clauses request g p e s1 in
             demo_mode (self (snd outcome)) = demo_mode (self s)
             /\ forall r, fst outcome = inr r ->
                  provisioned_users (self (snd outcome))
                  = (provisioned_users (self s)
                     ++ (if ProvisioningResult.success r then [r] else []))%list).
  { intros g p e s1 Hs. cbv zeta.
    destruct (except_clauses_failed request g p e s1) as [m ->]. cbn [fst snd].
    rewrite Hs. split; [reflexivity|]. intros r [= <-]. simpl. now rewrite app_nil_r. }
  destruct (_create_iam_user respond request s) as [[e|u] s1] eqn:E1;
    pose proof (Hkeep _ _ _ _ _
                  (pres_create_iam_user respond keeps_self (fun s => eq_refl)
                     keeps_self_trans (keeps_self_api respond) request) E1) as S1;
    [now apply Hfail|].
  destruct (_assign_groups respond request s1) as [[e|g] s2] eqn:E2;
    pose proof (Hkeep _ _ _ _ _
                  (pres_assign_groups respond keeps_self (fun s => eq_refl)
                     keeps_self_trans (keeps_self_api respond) request) E2) as S2;
    [apply Hfail; congruence|].
  destruct (_attach_policies respond request s2) as [[e|p] s3] eqn:E3;
    pose proof (Hkeep _ _ _ _ _
                  (pres_attach_policies respond keeps_self (fun s => eq_refl)
                     keeps_self_trans (keeps_self_api respond) request) E3) as S3;
    [apply Hfail; congruence|].
  destruct (_generate_password entropy s3) as [[e|pw] s4] eqn:E4;
    pose proof (Hkeep _ _ _ _ _
                  (pres_generate_password entropy keeps_self (fun s => eq_refl)
                     keeps_self_trans (keeps_self_choice entropy)) E4) as S4;
    [apply Hfail; congruence|].
  destruct (_set_login_profile respond (UserRequest.username request) pw s4)
    as [[e|u5] s5] eqn:E5;
    pose proof (Hkeep _ _ _ _ _
                  (pres_set_login_profile respond keeps_self (fun s => eq_refl)
                     keeps_self_trans (keeps_self_api respond) _ _) E5) as S5;
    [apply Hfail; congruence|].
  destruct (_store_credentials respond request pw s5) as [[e|loc] s6] eqn:E6;
    pose proof (Hkeep _ _ _ _ _
                  (pres_store_credentials respond keeps_self (fun s => eq_refl)
                     keeps_self_trans (keeps_self_api respond) request pw) E6) as S6;
    [apply Hfail; congruence|].
  destruct (_send_notification respond request loc s6) as [[e|u7] s7] eqn:E7;
    pose proof (Hkeep _ _ _ _ _
                  (pres_send_notification respond keeps_self (fun s => eq_refl)
                     keeps_self_trans (keeps_self_api respond) request loc) E7) as S7;
    [apply Hfail; congruence|].
  assert (Hs : self s7 = self s) by congruence.
  unfold bind, provisioned_users_append, ret. cbn [fst snd self demo_mode provisioned_users].
  rewrite Hs. split; [reflexivity|]. intros r [= <-]. reflexivity.
Qed.

(** Whatever the backend does, [create_user] records a result only when it
    is a success. *)
Lemma create_user_records_successes
    (respond : list ApiCall -> ApiCall -> option Exception) (entropy : nat -> nat)
    (request : UserRequest.t) (s : State) :
  Forall (fun r => ProvisioningResult.success r = true) (provisioned_users (self s)) ->
  Forall (fun r => ProvisioningResult.success r = true)
         (provisioned_users (self (snd (create_user respond entropy request s)))).
Proof.
  intros Hall.
  destruct (create_user_body_returns respond entropy request s) as [r Hr].
  rewrite (create_user_of_body _ _ _ _ _ _ Hr). cbn [snd].
  destruct (create_user_body_records respond entropy request s) as [_ Hrec].
  rewrite (Hrec r) by now rewrite Hr.
  apply Forall_app. split; [exact Hall|].
  destruct (ProvisioningResult.success r) eqn:E; [|constructor].
  constructor; [exact E | constructor].
Qed.

(** So after any run of requests by a fresh provisioner the summary counts
    no failed request. *)
Lemma get_summary_failed_zero (a : IAMProvisioner) :
  Forall (fun r => ProvisioningResult.success r = true) (provisioned_users a) ->
  failed (get_summary a) = 0%nat.
Proof.
  unfold get_summary. cbn [failed]. induction 1 as [|r rest Hr _ IH]; simpl.
  - reflexivity.
  - rewrite Hr. exact IH.
Qed.

Lemma provision_each_failed_zero
    (respond : list ApiCall -> ApiCall -> option Exception) (entropy : nat -> nat)
    (users : list UserRequest.t) :
  forall s,
    Forall (fun r => ProvisioningResult.success r = true) (provisioned_users (self s)) ->
    failed (get_summary (self (snd (provision_each respond entropy users s)))) = 0%nat.
Proof.
  induction users as [|user rest IH]; intros s Hall; cbn [provision_each].
  - now apply get_summary_failed_zero.
  - unfold bind.
    pose proof (create_user_records_successes respond entropy user s Hall) as Hnext.
    destruct (create_user respond entropy user s) as [[e|r] s1]; cbn [snd] in *.
    + now apply get_summary_failed_zero.
    + now apply IH.
Qed.


(** X2. Whatever the backend, the random source and the requests, the
    summary of a provisioner that started with no recorded result counts no
    failed request after the loop of [main]. *)
Lemma fresh_provisioner_failed_zero :
  forall (respond : list ApiCall -> ApiCall -> option Exception)
         (entropy : nat -> nat) (users : list UserRequest.t) (demo : bool)
         (w : World),
    failed (get_summary
              (self (snd (provision_each respond entropy users
                            {| self := init demo; world := w |}))))
    = 0%nat.
Proof.
  intros respond entropy users demo w.
  apply provision_each_failed_zero. constructor.
Qed.

(** *** Evaluations *)

(** C4, on the requests of the test suite: the two-character username is
    refused and the well-formed request is accepted. *)
Lemma validate_example :
  UserRequest.validate too_short = false /\ UserRequest.validate jsmith = true.
Proof.
  destruct validate_iff as [Hiff [Hshort _]]. split.
  - apply Hshort. left. reflexivity.
  - apply Hiff. repeat split; try discriminate; cbn; (tauto || lia).
Defined.

(** C5, on the invalid request of the test suite, against a live backend. *)
Lemma create_user_validation_failure_example :
  UserRequest.validate too_short = false
  /\ create_user backend_ok entropy_id too_short (fresh false)
     = (inr (Some (ProvisioningResult.make "ab" false "Validation failed" [] [] None)),
        fresh false).
Proof.
  split; [reflexivity|].
  apply (create_user_validation_failure backend_ok entropy_id too_short (fresh false)).
  reflexivity.
Defined.

(** C9, on a call that is throttled twice: the third attempt returns, after
    sleeps of one and two base delays. *)
Lemma retry_on_throttle_example :
  retry_on_throttle 3 1 (api backend_throttles_twice (iam_create_user "jsmith" []))
    (fresh false)
  = (inr (Some tt),
     {| self := init false;
        world := {| calls := [iam_create_user "jsmith" []; iam_create_user "jsmith" [];
                              iam_create_user "jsmith" []];
                    draws := 0;
                    sleeps := [1%Q; 2%Q] |} |}).
Proof.
  destruct (retry_on_throttle_three_attempts unit 1
              (api backend_throttles_twice (iam_create_user "jsmith" []))
              (fresh false)) as [_ [_ Hthrottled]].
  destruct (Hthrottled rate_exceeded _ eq_refl) as [_ [_ Hagain]].
  { left. now exists "Rate exceeded",
      "An error occurred (Throttling) when calling the CreateUser operation". }
  destruct (Hagain rate_exceeded _ eq_refl) as [Hthird _].
  { left. now exists "Rate exceeded",
      "An error occurred (Throttling) when calling the CreateUser operation". }
  exact (Hthird tt _ eq_refl).
Defined.

(** C2. The random draws [!!A!!!!!!!!!!!!!], then [a] and [0] for the two
    patches, give a password of sixteen characters with a lowercase letter
    and a digit and no uppercase letter: the lowercase patch leaves the
    uppercase letter at position 2, and the digit patch then overwrites it. *)
Theorem generate_password_loses_uppercase :
  fst (_generate_password entropy_symbols (fresh true)) = inr "!a0!!!!!!!!!!!!!"
  /\ String.length "!a0!!!!!!!!!!!!!" = PASSWORD_LENGTH
  /\ Py.any isupper "!a0!!!!!!!!!!!!!" = false
  /\ Py.any islower "!a0!!!!!!!!!!!!!" = true
  /\ Py.any isdigit "!a0!!!!!!!!!!!!!" = true
  /\ fst (join_choices entropy_symbols PASSWORD_LENGTH
            (ascii_letters ++ digits ++ "!@#$%^&*") (fresh true))
     = inr "!!A!!!!!!!!!!!!!".
Proof. repeat split; vm_compute; reflexivity. Qed.

(** C7. A bulk run in demo mode over a valid row and an invalid row returns
    one success and one failure, but only the success is recorded by the
    provisioner: the summary counts one processed request and no failed
    one. *)
Theorem get_summary_omits_failed_request :
  let run := provision_from_csv backend_ok entropy_id batch_rows (fresh true) in
  let summary := get_summary (self (snd run)) in
  (exists ok bad,
     fst run = inr [Some ok; Some bad]
     /\ ProvisioningResult.success ok = true
     /\ ProvisioningResult.success bad = false
     /\ ProvisioningResult.message bad = "Validation failed"
     /\ provisioned_users (self (snd run)) = [ok])
  /\ total_processed summary = 1%nat
  /\ successful summary = 1%nat
  /\ failed summary = 0%nat
  /\ users_failed summary = [].
Proof.
  cbv zeta. split.
  - eexists. eexists. vm_compute. repeat split.
  - vm_compute. repeat split.
Qed.

(** C8. In an account where the groups IT-Users and VPN-Access do not
    exist, [_assign_groups] for a user of the IT department returns a list
    that still holds VPN-Access: removing IT-Users from the list under
    iteration makes the loop skip VPN-Access, which is never tried. *)
Theorem assign_groups_keeps_missing_group :
  let run := _assign_groups backend_missing_groups bwilliams (fresh false) in
  let targets := (DEFAULT_GROUP :: ["IT-Users"; "VPN-Access"; "CloudWatch-ReadOnly"])%list in
  fst run = inr ["StandardUsers"; "VPN-Access"; "CloudWatch-ReadOnly"]
  /\ filter (fun g => negb (Py.str_mem g missing_groups)) targets
     = ["StandardUsers"; "CloudWatch-ReadOnly"]
  /\ (forall history, exists message text,
        backend_missing_groups history (iam_add_user_to_group "bwilliams" "VPN-Access")
        = Some (ClientError "NoSuchEntity" message text))
  /\ calls (world (snd run))
     = [ iam_add_user_to_group "bwilliams" "StandardUsers";
         iam_add_user_to_group "bwilliams" "IT-Users";
         iam_add_user_to_group "bwilliams" "CloudWatch-ReadOnly" ].
Proof.
  cbv zeta. split; [reflexivity|]. split; [reflexivity|]. split; [|reflexivity].
  intros history. eexists. eexists. reflexivity.
Qed.


End ProvisionerProperties.

(** * Further properties of the compliance audit *)

Section AuditFurther.

Import Audit AuditSpec.

(** *** Serialisation of a finding *)

Lemma Severity_value_inj (a b : Severity) :
  Severity_value a = Severity_value b -> a = b.
Proof. destruct a, b; simpl; intros H; (reflexivity || discriminate). Qed.

Lemma ComplianceStatus_value_inj (a b : ComplianceStatus) :
  ComplianceStatus_value a = ComplianceStatus_value b -> a = b.
Proof. destruct a, b; simpl; intros H; (reflexivity || discriminate). Qed.

(** X3. [Finding.to_dict] loses nothing: two findings with the same dict
    are the same finding, the enum fields being written as their value
    strings, which are pairwise distinct. *)
Theorem finding_to_dict_injective :
  forall f g : Finding.t, Finding.to_dict f = Finding.to_dict g -> f = g.
Proof.
  intros [a1 a2 a3 a4 a5 a6 a7 a8 a9] [b1 b2 b3 b4 b5 b6 b7 b8 b9] H.
  unfold Finding.to_dict in H. cbn in H.
  injection H as H1 H2 H3 H4 H5 H6 H7 H8 H9.
  apply Severity_value_inj in H5. apply ComplianceStatus_value_inj in H6.
  now subst.
Qed.

Lemma finding_to_dict_injective_example :
  Finding.to_dict password_policy_finding = Finding.to_dict password_policy_finding
  /\ password_policy_finding = password_policy_finding.
Proof.
  split; [reflexivity|].
  apply (finding_to_dict_injective password_policy_finding password_policy_finding).
  reflexivity.
Defined.

(** *** The per-identity checks *)

(** X4. [_check_mfa_enabled] appends one HIGH finding of rule CIS-1.2 on
    the identity when it has a password-use time and no MFA device, and
    leaves the auditor as it was otherwise: whenever there is an MFA device,
    and whenever the identity never logged in. *)
Theorem check_mfa_enabled_findings :
  forall (user : User) (s : State),
    let s' := snd (_check_mfa_enabled user s) in
    (PasswordLastUsed user <> None /\ Py.get_or (MFADevices user) [] = [] ->
     exists f,
       findings (self s') = (findings (self s) ++ [f])%list
       /\ Finding.rule_id f = "CIS-1.2" /\ Finding.severity f = HIGH
       /\ Finding.status f = NON_COMPLIANT
       /\ Finding.resource_id f = UserName user)
    /\ (PasswordLastUsed user = None \/ Py.get_or (MFADevices user) [] <> [] ->
        s' = s).
Proof.
  intros user s s'. unfold s', _check_mfa_enabled. split.
  - intros [Hconsole Hmfa]. rewrite Hmfa.
    destruct (PasswordLastUsed user); [|congruence]. cbn.
    eexists. repeat split.
  - intros [Hnone|Hdev].
    + rewrite Hnone. reflexivity.
    + destruct (Py.get_or (MFADevices user) []) as [|d ds]; [congruence|].
      destruct (PasswordLastUsed user); reflexivity.
Qed.

(** X5. [_check_unused_credentials] reads the clock only when the identity
    has a password-use time; it appends one MEDIUM finding of rule CIS-1.3
    when the whole days since that time are strictly above 45 and nothing
    when they are 45 or fewer; an identity that never logged in gets no
    finding and costs no clock reading. *)
Theorem check_unused_credentials_findings :
  forall (utcnow : nat -> datetime) (user : User) (s : State),
    let s' := snd (_check_unused_credentials utcnow user s) in
    (PasswordLastUsed user = None -> s' = s)
    /\ (forall last_used,
          PasswordLastUsed user = Some last_used ->
          clock_reads s' = S (clock_reads s)
          /\ let idle := days_between (utcnow (clock_reads s)) last_used in
             (idle <= 45 -> findings (self s') = findings (self s))
             /\ (45 < idle ->
                 exists f,
                   findings (self s') = (findings (self s) ++ [f])%list
                   /\ Finding.rule_id f = "CIS-1.3"
                   /\ Finding.severity f = MEDIUM
                   /\ Finding.status f = NON_COMPLIANT
                   /\ Finding.resource_id f = UserName user
                   /\ Finding.details f
                      = [("days_unused", DInt idle); ("threshold", DInt 45)])).
Proof.
  intros utcnow user s s'. unfold s', _check_unused_credentials. split.
  - intros ->. reflexivity.
  - intros last_used ->. unfold bind, now. cbn [fst snd].
    unfold MAX_UNUSED_DAYS. rewrite Z.gtb_ltb.
    destruct (Z.ltb_spec 45 (days_between (utcnow (clock_reads s)) last_used))
      as [Hlt|Hge]; cbn.
    + split; [reflexivity|]. split; [lia|]. intros _. eexists. repeat split.
    + split; [reflexivity|]. split; [reflexivity | lia].
Qed.

(** X6. [_check_multiple_access_keys] appends one LOW finding of rule BP-1,
    carrying the number of active keys, exactly when the identity has more
    than one access key whose status is Active; inactive keys do not count,
    and with at most one active key the auditor is left as it was. *)
Theorem check_multiple_access_keys_findings :
  forall (user : User) (s : State),
    let active :=
      filter (fun k => String.eqb (Status k) "Active")
             (Py.get_or (AccessKeys user) []) in
    let s' := snd (_check_multiple_access_keys user s) in
    ((List.length active <= 1)%nat -> s' = s)
    /\ ((1 < List.length active)%nat ->
        exists f,
          findings (self s') = (findings (self s) ++ [f])%list
          /\ Finding.rule_id f = "BP-1" /\ Finding.severity f = LOW
          /\ Finding.resource_id f = UserName user
          /\ Finding.details f
             = [("active_key_count", DInt (Z.of_nat (List.length active)))]).
Proof.
  intros user s active s'. unfold s', _check_multiple_access_keys.
  fold active. split; intros H.
  - destruct (Nat.ltb_spec 1 (List.length active)); [lia | reflexivity].
  - destruct (Nat.ltb_spec 1 (List.length active)); [|lia].
    cbn. eexists. repeat split.
Qed.

Lemma check_admin_privileges_loop (username : string) :
  forall (policies : list Policy) (s : State),
    snd (for_each policies
           (fun policy =>
              if Py.str_mem (PolicyName policy) ["AdministratorAccess"; "PowerUserAccess"]
              then
                findings_append
                  (Finding.make "CIS-1.16" "Admin Privilege Check" "IAM User" username
                     CRITICAL NON_COMPLIANT
                     ("User has " ++ PolicyName policy ++ " attached directly")
                     "Use least-privilege policies instead"
                     [("policy", DStr (PolicyName policy))])
              else ret tt) s)
    = {| self :=
           {| demo_mode := demo_mode (self s);
              findings :=
                (findings (self s)
                 ++ map (fun policy =>
                           Finding.make "CIS-1.16" "Admin Privilege Check" "IAM User"
                             username CRITICAL NON_COMPLIANT
                             ("User has " ++ PolicyName policy ++ " attached directly")
                             "Use least-privilege policies instead"
                             [("policy", DStr (PolicyName policy))])
                        (filter is_admin_policy policies))%list |};
         clock_reads := clock_reads s |}.
Proof.
  induction policies as [|p rest IH]; intros s.
  - simpl. rewrite app_nil_r. destruct s as [[d fs] n]. reflexivity.
  - cbn [for_each filter]. unfold bind at 1.
    replace (Py.str_mem (PolicyName p) ["AdministratorAccess"; "PowerUserAccess"])
      with (is_admin_policy p)
      by (unfold is_admin_policy, Py.str_mem; cbn [existsb]; now rewrite orb_false_r).
    destruct (is_admin_policy p).
    + unfold findings_append at 1. rewrite IH.
      cbn [self clock_reads demo_mode findings map].
      now rewrite <- app_assoc.
    + unfold ret at 1. rewrite IH. reflexivity.
Qed.

(** X7. [_check_admin_privileges] appends one CRITICAL finding of rule
    CIS-1.16 for each directly attached policy named AdministratorAccess or
    PowerUserAccess, in the order of the policies, each naming its policy,
    and nothing for any other policy; and whenever it appends a finding,
    [_check_direct_policy_attachment] appends its LOW finding of rule BP-2
    for the same identity. *)
Theorem check_admin_privileges_findings :
  forall (user : User) (s : State),
    let policies := Py.get_or (AttachedPolicies user) [] in
    let admin := filter is_admin_policy policies in
    let s' := snd (_check_admin_privileges user s) in
    (exists added,
       findings (self s') = (findings (self s) ++ added)%list
       /\ map Finding.details added
          = map (fun p => [("policy", DStr (PolicyName p))]) admin
       /\ (forall f, In f added ->
             Finding.rule_id f = "CIS-1.16" /\ Finding.severity f = CRITICAL
             /\ Finding.status f = NON_COMPLIANT
             /\ Finding.resource_id f = UserName user))
    /\ (admin <> [] ->
        forall s0,
        exists f,
          findings (self (snd (_check_direct_policy_attachment user s0)))
          = (findings (self s0) ++ [f])%list
          /\ Finding.rule_id f = "BP-2" /\ Finding.severity f = LOW
          /\ Finding.resource_id f = UserName user
          /\ Finding.details f = [("policies", DStrList (map PolicyName policies))]).
Proof.
  intros user s policies admin s'. split.
  - unfold s', _check_admin_privileges.
    rewrite (check_admin_privileges_loop (UserName user)). cbn [self findings].
    eexists. split; [reflexivity|]. split.
    + rewrite map_map. reflexivity.
    + intros f Hin. apply in_map_iff in Hin. destruct Hin as [p [<- _]].
      repeat split.
  - intros Hadmin s0. unfold _check_direct_policy_attachment. fold policies.
    destruct policies as [|p rest] eqn:Hp.
    + exfalso. apply Hadmin. reflexivity.
    + cbn. eexists. repeat split.
Qed.

(** *** The whole run *)

Lemma bind_unit {B : Type} (c : M unit) (k : unit -> M B) (s : State) :
  bind c k s = k tt (snd (c s)).
Proof. unfold bind. destruct (c s) as [[] s1]. reflexivity. Qed.

Lemma bind_ret {A B : Type} (a : A) (k : A -> M B) (s : State) :
  bind (ret a) k s = k a s.
Proof. reflexivity. Qed.

Lemma bind_get_self {B : Type} (k : IAMComplianceAuditor -> M B) (s : State) :
  bind get_self k s = k (self s) s.
Proof. reflexivity. Qed.

Lemma bind_bind {A B C : Type} (c : M A) (k : A -> M B) (h : B -> M C) (s : State) :
  bind (bind c k) h s = bind c (fun a => bind (k a) h) s.
Proof. unfold bind. destruct (c s) as [a s1]. reflexivity. Qed.

Lemma only_appends_ret {A : Type} (a : A) : only_appends (ret a).
Proof. intros s. split; [reflexivity|]. exists []. simpl. now rewrite app_nil_r. Qed.

Lemma only_appends_bind {A B : Type} (c : M A) (k : A -> M B) :
  only_appends c -> (forall a, only_appends (k a)) -> only_appends (bind c k).
Proof.
  intros Hc Hk s. unfold bind. specialize (Hc s).
  destruct (c s) as [a s1]. cbn [snd] in Hc. destruct Hc as [Hm [x Hx]].
  destruct (Hk a s1) as [Hm' [y Hy]]. split; [congruence|].
  exists (x ++ y)%list. now rewrite Hy, Hx, app_assoc.
Qed.

Lemma only_appends_for_each {A : Type} (xs : list A) (body : A -> M unit) :
  (forall x, only_appends (body x)) -> only_appends (for_each xs body).
Proof.
  intros Hbody. induction xs as [|x rest IH]; cbn [for_each].
  - apply only_appends_ret.
  - apply only_appends_bind; [apply Hbody | intros _; exact IH].
Qed.

Lemma only_appends_findings_append (f : Finding.t) : only_appends (findings_append f).
Proof. intros s. split; [reflexivity|]. now exists [f]. Qed.

Lemma only_appends_get_self : only_appends get_self.
Proof. intros s. split; [reflexivity|]. exists []. simpl. now rewrite app_nil_r. Qed.

Lemma only_appends_now (utcnow : nat -> datetime) : only_appends (now utcnow).
Proof. intros s. split; [reflexivity|]. exists []. simpl. now rewrite app_nil_r. Qed.

Ltac only_appends_step :=
  first
    [ apply only_appends_ret
    | apply only_appends_findings_append
    | apply only_appends_get_self
    | apply only_appends_now
    | apply only_appends_bind; [|intros ?]
    | apply only_appends_for_each; intros ?
    | match goal with
      | |- only_appends (if ?b then _ else _) => destruct b
      | |- only_appends (match ?x with _ => _ end) => destruct x
      end ].

(** The checks of one identity, and the scan of a list of identities,
    only append. *)
Lemma scan_only_appends :
  forall (utcnow : nat -> datetime) (users : list User),
    only_appends (for_each users (user_checks utcnow))
    /\ (forall user,
          only_appends (_check_mfa_enabled user)
          /\ only_appends (_check_access_key_age utcnow user)
          /\ only_appends (_check_unused_credentials utcnow user)
          /\ only_appends (_check_multiple_access_keys user)
          /\ only_appends (_check_direct_policy_attachment user)
          /\ only_appends (_check_admin_privileges user)).
Proof.
  intros utcnow users.
  assert (Hall : forall user,
          only_appends (_check_mfa_enabled user)
          /\ only_appends (_check_access_key_age utcnow user)
          /\ only_appends (_check_unused_credentials utcnow user)
          /\ only_appends (_check_multiple_access_keys user)
          /\ only_appends (_check_direct_policy_attachment user)
          /\ only_appends (_check_admin_privileges user)).
  { intros user.
    unfold _check_mfa_enabled, _check_access_key_age, _check_unused_credentials,
      _check_multiple_access_keys, _check_direct_policy_attachment,
      _check_admin_privileges.
    repeat match goal with |- _ /\ _ => split end; repeat only_appends_step. }
  split; [|exact Hall].
  apply only_appends_for_each. intros user.
  destruct (Hall user) as [H1 [H2 [H3 [H4 [H5 H6]]]]].
  unfold user_checks.
  repeat (apply only_appends_bind; [assumption | intros _]). assumption.
Qed.

(** X8. None of the six per-identity checks, and so no scan of any list of
    identities, removes, replaces or reorders a finding already held: the
    findings held before are a prefix of the findings held after, and the
    auditor's mode is kept. *)
Theorem user_checks_only_append :
  forall (utcnow : nat -> datetime) (users : list User),
    only_appends (for_each users (user_checks utcnow))
    /\ (forall user,
          only_appends (_check_mfa_enabled user)
          /\ only_appends (_check_access_key_age utcnow user)
          /\ only_appends (_check_unused_credentials utcnow user)
          /\ only_appends (_check_multiple_access_keys user)
          /\ only_appends (_check_direct_policy_attachment user)
          /\ only_appends (_check_admin_privileges user)).
Proof. exact scan_only_appends. Qed.

Lemma only_appends_password_policy : only_appends _check_password_policy.
Proof. unfold _check_password_policy. repeat only_appends_step. Qed.

Lemma only_appends_root_account : only_appends _check_root_account.
Proof. unfold _check_root_account. repeat only_appends_step. Qed.

Lemma check_password_policy_state (s : State) :
  snd (_check_password_policy s)
  = {| self :=
         {| demo_mode := demo_mode (self s);
            findings :=
              (findings (self s)
               ++ (if demo_mode (self s) then [password_policy_finding] else []))%list |};
       clock_reads := clock_reads s |}.
Proof.
  destruct s as [[d fs] n]. unfold _check_password_policy, bind, get_self.
  destruct d; cbn; rewrite ?app_nil_r; reflexivity.
Qed.

Lemma check_root_account_state (s : State) :
  snd (_check_root_account s)
  = {| self :=
         {| demo_mode := demo_mode (self s);
            findings :=
              (findings (self s)
               ++ (if demo_mode (self s) then [root_account_finding] else []))%list |};
       clock_reads := clock_reads s |}.
Proof.
  destruct s as [[d fs] n]. unfold _check_root_account, bind, get_self.
  destruct d; cbn; rewrite ?app_nil_r; reflexivity.
Qed.

Lemma generate_report_findings (utcnow : nat -> datetime) (total_users : nat)
    (s : State) :
  AuditReport.findings (fst (_generate_report utcnow total_users s))
  = findings (self s).
Proof. reflexivity. Qed.

(** [run_full_audit], one statement after the other. *)
Lemma run_full_audit_unfold (utcnow : nat -> datetime)
    (DEMO_USERS iam_users : list User) (s : State) :
  let users := if demo_mode (self s) then DEMO_USERS else iam_users in
  let s0 := {| self := init (demo_mode (self s)); clock_reads := clock_reads s |} in
  let s1 := snd (for_each users (user_checks utcnow) s0) in
  let s2 := snd (_check_password_policy s1) in
  let s3 := snd (_check_root_account s2) in
  run_full_audit utcnow DEMO_USERS iam_users s
  = _generate_report utcnow (List.length users) s3.
Proof.
  cbv zeta. unfold run_full_audit, _get_users. rewrite bind_unit.
  cbn [findings_assign snd]. rewrite bind_bind, bind_get_self. cbn [self demo_mode].
  destruct (demo_mode (self s)); rewrite bind_ret, !bind_unit; reflexivity.
Qed.

Lemma severity_counts_sum (fs : list Finding.t) :
  (count_severity CRITICAL fs + count_severity HIGH fs + count_severity MEDIUM fs
   + count_severity LOW fs + count_severity INFO fs)%nat
  = List.length fs.
Proof.
  unfold count_severity. induction fs as [|f fs IH]; [reflexivity|].
  cbn [filter List.length]. destruct (Finding.severity f); cbn; lia.
Qed.

(** X9. The report of [run_full_audit] is consistent with the auditor it
    leaves: its findings are the auditor's findings, [total_findings] is
    their number, [total_users] is the number of identities listed for the
    mode, and the four severity counts add up to the number of findings
    that are not INFO. *)
Theorem run_full_audit_report_consistent :
  forall (utcnow : nat -> datetime) (DEMO_USERS iam_users : list User) (s : State),
    let run := run_full_audit utcnow DEMO_USERS iam_users s in
    let report := fst run in
    AuditReport.findings report = findings (self (snd run))
    /\ demo_mode (self (snd run)) = demo_mode (self s)
    /\ AuditReport.total_findings report = List.length (AuditReport.findings report)
    /\ AuditReport.total_users report
       = List.length (if demo_mode (self s) then DEMO_USERS else iam_users)
    /\ (AuditReport.critical_count report + AuditReport.high_count report
        + AuditReport.medium_count report + AuditReport.low_count report
        + List.length (filter (fun f => Severity_eqb (Finding.severity f) INFO)
                              (AuditReport.findings report)))%nat
       = AuditReport.total_findings report.
Proof.
  intros utcnow DEMO_USERS iam_users s run report. unfold report, run.
  rewrite run_full_audit_unfold. cbv zeta.
  set (users := if demo_mode (self s) then DEMO_USERS else iam_users).
  set (s0 := {| self := init (demo_mode (self s)); clock_reads := clock_reads s |}).
  destruct (scan_only_appends utcnow users) as [Hloop _].
  destruct (Hloop s0) as [Hmode _].
  set (s1 := snd (for_each users (user_checks utcnow) s0)) in *.
  destruct (only_appends_password_policy s1) as [Hmode2 _].
  destruct (only_appends_root_account (snd (_check_password_policy s1)))
    as [Hmode3 _].
  unfold _generate_report, bind, get_self, now, ret. cbn [fst snd self].
  cbn [AuditReport.findings AuditReport.total_findings AuditReport.total_users
       AuditReport.critical_count AuditReport.high_count AuditReport.medium_count
       AuditReport.low_count].
  split; [reflexivity|]. split; [rewrite Hmode3, Hmode2, Hmode; reflexivity|].
  split; [reflexivity|]. split; [reflexivity|].
  apply severity_counts_sum.
Qed.

(** X10. The findings of a report are the findings of the scan of the
    identities listed (the demo identities in demo mode, the account's
    identities in live mode), whatever the auditor held before, followed by
    the account-level findings: in demo mode the MEDIUM finding on password
    reuse and then the COMPLIANT INFO finding on the root account, in live
    mode none.  So when no identity is listed the report holds the
    account-level findings and nothing else. *)
Theorem run_full_audit_account_level :
  forall (utcnow : nat -> datetime) (DEMO_USERS iam_users : list User) (s : State),
    let report := fst (run_full_audit utcnow DEMO_USERS iam_users s) in
    let users := if demo_mode (self s) then DEMO_USERS else iam_users in
    AuditReport.findings report
    = (scan_findings utcnow users (demo_mode (self s)) (clock_reads s)
       ++ account_level_findings (demo_mode (self s)))%list
    /\ (users = [] ->
        AuditReport.findings report = account_level_findings (demo_mode (self s))).
Proof.
  intros utcnow DEMO_USERS iam_users s report users.
  assert (Hscan : AuditReport.findings report
    = (scan_findings utcnow users (demo_mode (self s)) (clock_reads s)
       ++ account_level_findings (demo_mode (self s)))%list).
  { unfold report, scan_findings. rewrite run_full_audit_unfold. cbv zeta.
    fold users.
    set (s0 := {| self := init (demo_mode (self s)); clock_reads := clock_reads s |}).
    destruct (scan_only_appends utcnow users) as [Hloop _].
    destruct (Hloop s0) as [Hmode [added Hadded]].
    set (s1 := snd (for_each users (user_checks utcnow) s0)) in *.
    cbn [s0 self demo_mode init] in Hmode.
    rewrite generate_report_findings, check_root_account_state,
      check_password_policy_state.
    cbn [self demo_mode findings]. rewrite Hmode. unfold account_level_findings.
    destruct (demo_mode (self s)).
    - now rewrite <- app_assoc.
    - now rewrite !app_nil_r. }
  split; [exact Hscan|].
  intros Hnone. rewrite Hscan, Hnone. reflexivity.
Qed.

(** X11. In live mode an account that lists no identity gives a report
    with no finding, every count zero, and a compliance score of 0.0: the
    denominator [max(total, 1)] keeps the division defined, and an empty
    report scores zero, not one hundred. *)
Theorem run_full_audit_no_identity :
  forall (utcnow : nat -> datetime) (DEMO_USERS : list User) (s : State),
    demo_mode (self s) = false ->
    let report := fst (run_full_audit utcnow DEMO_USERS [] s) in
    AuditReport.findings report = []
    /\ AuditReport.total_users report = 0%nat
    /\ AuditReport.total_findings report = 0%nat
    /\ AuditReport.critical_count report = 0%nat
    /\ AuditReport.high_count report = 0%nat
    /\ AuditReport.medium_count report = 0%nat
    /\ AuditReport.low_count report = 0%nat
    /\ AuditReport.compliance_score report = 0%float.
Proof.
  intros utcnow DEMO_USERS s Hlive report. unfold report.
  rewrite run_full_audit_unfold. cbv zeta. rewrite Hlive.
  cbn. repeat split.
Qed.

Lemma run_full_audit_no_identity_example :
  demo_mode (self (fresh false)) = false
  /\ AuditReport.compliance_score
       (fst (run_full_audit (frozen noon) (DEMO_USERS_at noon) [] (fresh false)))
     = 0%float.
Proof.
  split; [reflexivity|].
  apply (run_full_audit_no_identity (frozen noon) (DEMO_USERS_at noon) (fresh false)
           eq_refl).
Defined.

End AuditFurther.

(** * Further properties of the provisioner *)

Section ProvisionerFurther.

Import Provisioner ProvisionerSpec.

Variable respond : list ApiCall -> ApiCall -> option Exception.
Variable entropy : nat -> nat.

(** *** Steps in demo mode *)

Lemma assign_loop_demo (request : UserRequest.t) :
  forall (fuel i : nat) (groups : list string) (s : State),
    demo_mode (self s) = true ->
    assign_loop respond fuel request i groups s = (inr groups, s).
Proof.
  induction fuel as [|fuel IH]; intros i groups s Hdemo; cbn [assign_loop].
  - reflexivity.
  - destruct (nth_error groups i); [|reflexivity].
    unfold bind, get_self. rewrite Hdemo. now apply IH.
Qed.

Lemma attach_loop_demo (request : UserRequest.t) :
  forall (policies : list string) (s : State),
    demo_mode (self s) = true ->
    attach_loop respond request policies s = (inr tt, s).
Proof.
  induction policies as [|p rest IH]; intros s Hdemo; cbn [attach_loop].
  - reflexivity.
  - unfold bind, get_self. rewrite Hdemo. cbn. now apply IH.
Qed.

Lemma assign_groups_demo (request : UserRequest.t) (s : State) :
  demo_mode (self s) = true ->
  _assign_groups respond request s = (inr (target_groups request), s).
Proof.
  intros Hdemo. unfold _assign_groups, target_groups.
  destruct (Py.dict_get DEPARTMENT_GROUPS (UserRequest.department request));
    now apply assign_loop_demo.
Qed.

Lemma attach_policies_demo (request : UserRequest.t) (s : State) :
  demo_mode (self s) = true ->
  _attach_policies respond request s = (inr (role_policies request), s).
Proof.
  intros Hdemo. unfold _attach_policies, role_policies.
  destruct (Py.dict_get ROLE_POLICIES (UserRequest.role request)); [|reflexivity].
  unfold bind. now rewrite attach_loop_demo.
Qed.

(** *** Steps against a backend that accepts every call *)

Lemma issued_nil (s : State) : issued [] s = s.
Proof. destruct s as [a [c d sl]]. unfold issued. cbn. now rewrite app_nil_r. Qed.

Lemma issued_app (a b : list ApiCall) (s : State) :
  issued b (issued a s) = issued (a ++ b) s.
Proof. unfold issued. cbn. now rewrite app_assoc. Qed.

Lemma api_accepted (c : ApiCall) (s : State) :
  accepts_all respond -> api respond c s = (inr tt, issued [c] s).
Proof. intros H. unfold api. now rewrite H. Qed.

Lemma api_issued (c : ApiCall) (s : State) :
  api respond c s
  = (match respond (calls (world s)) c with
     | Some e => inl e
     | None => inr tt
     end, issued [c] s).
Proof. unfold api, issued. destruct (respond (calls (world s)) c); reflexivity. Qed.

Lemma skipn_nth_error {A : Type} (l : list A) :
  forall i x, nth_error l i = Some x -> skipn i l = (x :: skipn (S i) l)%list.
Proof.
  induction l as [|y l IH]; intros [|i] x H; simpl in *; try discriminate.
  - now injection H as ->.
  - now apply IH.
Qed.

Lemma assign_loop_accepted (request : UserRequest.t) :
  accepts_all respond ->
  forall (fuel i : nat) (groups : list string) (s : State),
    demo_mode (self s) = false ->
    (List.length groups - i <= fuel)%nat ->
    assign_loop respond fuel request i groups s
    = (inr groups,
       issued (map (iam_add_user_to_group (UserRequest.username request))
                   (skipn i groups)) s).
Proof.
  intros Hall. induction fuel as [|fuel IH]; intros i groups s Hlive Hfuel;
    cbn [assign_loop].
  - rewrite skipn_all2 by lia. now rewrite issued_nil.
  - destruct (nth_error groups i) as [group|] eqn:Hnth.
    + assert (Hlt : (i < List.length groups)%nat)
        by (apply nth_error_Some; congruence).
      unfold bind, get_self, try_step. rewrite Hlive.
      rewrite api_accepted by exact Hall.
      rewrite IH by (cbn; (assumption || lia)).
      rewrite issued_app, (skipn_nth_error _ _ _ Hnth). reflexivity.
    + apply nth_error_None in Hnth. rewrite skipn_all2 by lia.
      now rewrite issued_nil.
Qed.

Lemma attach_loop_accepted (request : UserRequest.t) :
  accepts_all respond ->
  forall (policies : list string) (s : State),
    demo_mode (self s) = false ->
    attach_loop respond request policies s
    = (inr tt,
       issued (map (iam_attach_user_policy (UserRequest.username request)) policies) s).
Proof.
  intros Hall. induction policies as [|p rest IH]; intros s Hlive; cbn [attach_loop].
  - now rewrite issued_nil.
  - unfold bind, get_self. rewrite Hlive.
    rewrite api_accepted by exact Hall.
    rewrite IH by (cbn; assumption). now rewrite issued_app.
Qed.

(** *** Password generation touches nothing but the random source *)

Lemma only_draws_refl (s : State) : only_draws s s.
Proof. repeat split. Qed.

Lemma only_draws_trans (s1 s2 s3 : State) :
  only_draws s1 s2 -> only_draws s2 s3 -> only_draws s1 s3.
Proof. unfold only_draws. intros [A [B C]] [D [E F]]. repeat split; congruence. Qed.

Lemma only_draws_choice (seq : string) (s : State) :
  only_draws s (snd (choice entropy seq s)).
Proof.
  unfold choice.
  destruct (String.get (entropy (draws (world s)) mod String.length seq)%nat seq);
    repeat split.
Qed.

Lemma generate_password_only_draws (s : State) :
  exists password s',
    _generate_password entropy s = (inr password, s')
    /\ String.length password = PASSWORD_LENGTH
    /\ only_draws s s'.
Proof.
  destruct (generate_password_shape entropy s) as [pw [s' [H [L _]]]].
  exists pw, s'. repeat split; try assumption;
    pose proof (pres_generate_password entropy only_draws only_draws_refl
                  only_draws_trans only_draws_choice s) as K;
    rewrite H in K; apply K.
Qed.

Lemma create_iam_user_demo (request : UserRequest.t) (s : State) :
  demo_mode (self s) = true -> _create_iam_user respond request s = (inr tt, s).
Proof. intros H. unfold _create_iam_user, bind, get_self. now rewrite H. Qed.

Lemma set_login_profile_demo (username password : string) (s : State) :
  demo_mode (self s) = true ->
  _set_login_profile respond username password s = (inr tt, s).
Proof. intros H. unfold _set_login_profile, bind, get_self. now rewrite H. Qed.

Lemma store_credentials_demo (request : UserRequest.t) (password : string) (s : State) :
  demo_mode (self s) = true ->
  _store_credentials respond request password s = (inr (secret_locator request), s).
Proof. intros H. unfold _store_credentials, bind, get_self. now rewrite H. Qed.

Lemma send_notification_demo (request : UserRequest.t) (location : string) (s : State) :
  demo_mode (self s) = true ->
  _send_notification respond request location s = (inr tt, s).
Proof. intros H. unfold _send_notification, bind, get_self. now rewrite H. Qed.

(** X12. [create_user] never raises and never returns None: whatever the
    backend does and whatever the request, it returns a result for the
    request's username, and it records that result in [provisioned_users]
    exactly when the result is a success. *)
Theorem create_user_never_raises :
  forall (request : UserRequest.t) (s : State),
    exists r s',
      create_user respond entropy request s = (inr (Some r), s')
      /\ ProvisioningResult.username r = UserRequest.username request
      /\ provisioned_users (self s')
         = (provisioned_users (self s)
            ++ (if ProvisioningResult.success r then [r] else []))%list
      /\ demo_mode (self s') = demo_mode (self s).
Proof.
  intros request s.
  destruct (create_user_body_returns respond entropy request s) as [r Hr].
  destruct (create_user_body_records respond entropy request s) as [Hmode Hrec].
  exists r, (snd (create_user_body respond entropy request s)).
  split; [now apply create_user_of_body|].
  split; [|split; [apply Hrec; now rewrite Hr | exact Hmode]].
  revert Hr. generalize (snd (create_user_body respond entropy request s)).
  intros s' Hr. unfold create_user_body in Hr.
  destruct (negb (UserRequest.validate request)); [now injection Hr as <- _|].
  unfold try_step in Hr.
  repeat match type of Hr with
         | (let (_, _) := ?c in _) = _ =>
             let e := fresh "e" in
             let st := fresh "st" in
             destruct c as [[e|?] st];
             [ match type of Hr with
               | except_clauses ?q ?g ?p e st = _ =>
                   destruct (except_clauses_failed q g p e st) as [m Hm];
                   rewrite Hm in Hr; now injection Hr as <- _
               end | ]
         end.
  unfold bind, provisioned_users_append, ret in Hr. now injection Hr as <- _.
Qed.

(** X13. In demo mode a valid request is always provisioned: the result is
    a success carrying the default group followed by the groups of the
    department (none for an unknown department), the policies of the role
    (none for an unknown role) and the locator
    [secretsmanager:iam-credentials/<department>/<username>]; it is recorded
    last in [provisioned_users], and nothing but random characters is
    consumed. *)
Theorem create_user_demo_succeeds :
  forall (request : UserRequest.t) (s : State),
    UserRequest.validate request = true ->
    demo_mode (self s) = true ->
    exists s',
      create_user respond entropy request s = (inr (Some (provisioned request)), s')
      /\ provisioned_users (self s')
         = (provisioned_users (self s) ++ [provisioned request])%list
      /\ calls (world s') = calls (world s)
      /\ sleeps (world s') = sleeps (world s).
Proof.
  intros request s Hvalid Hdemo.
  destruct (generate_password_only_draws s) as [pw [s4 [Hpw [_ [Hself [Hcalls Hsleeps]]]]]].
  assert (Hdemo4 : demo_mode (self s4) = true) by now rewrite Hself.
  eexists. split.
  - apply create_user_of_body. unfold create_user_body. rewrite Hvalid. cbn [negb].
    unfold try_step.
    rewrite create_iam_user_demo, assign_groups_demo, attach_policies_demo by assumption.
    rewrite Hpw.
    rewrite set_login_profile_demo, store_credentials_demo, send_notification_demo
      by assumption.
    unfold bind, provisioned_users_append, ret. reflexivity.
  - cbn. rewrite Hself. repeat split; assumption.
Qed.

(** X14. In demo mode [create_user] never reaches the backend and never
    sleeps, whatever the request and whatever the backend would answer. *)
Theorem create_user_demo_calls_nothing :
  forall (request : UserRequest.t) (s : State),
    demo_mode (self s) = true ->
    calls (world (snd (create_user respond entropy request s))) = calls (world s)
    /\ sleeps (world (snd (create_user respond entropy request s))) = sleeps (world s).
Proof.
  intros request s Hdemo.
  destruct (UserRequest.validate request) eqn:Hvalid.
  - destruct (generate_password_only_draws s) as [pw [s4 [Hpw [_ [Hself [Hcalls Hsleeps]]]]]].
    assert (Hdemo4 : demo_mode (self s4) = true) by now rewrite Hself.
    erewrite create_user_of_body.
    2:{ unfold create_user_body. rewrite Hvalid. cbn [negb]. unfold try_step.
        rewrite create_iam_user_demo, assign_groups_demo, attach_policies_demo
          by assumption.
        rewrite Hpw.
        rewrite set_login_profile_demo, store_credentials_demo, send_notification_demo
          by assumption.
        unfold bind, provisioned_users_append, ret. reflexivity. }
    cbn. split; assumption.
  - erewrite create_user_of_body.
    2:{ unfold create_user_body. rewrite Hvalid. reflexivity. }
    split; reflexivity.
Qed.

Lemma create_iam_user_accepted (request : UserRequest.t) (s : State) :
  accepts_all respond -> demo_mode (self s) = false ->
  _create_iam_user respond request s
  = (inr tt, issued (firstn 1 (provisioning_calls request "")) s).
Proof.
  intros Hall Hlive. unfold _create_iam_user, bind, get_self. rewrite Hlive.
  rewrite api_accepted by exact Hall. cbn [provisioning_calls firstn app].
  destruct (UserRequest.manager request) as [m|];
    [destruct (Py.truthy m)|]; rewrite ?app_nil_r; reflexivity.
Qed.

(** The calls of a live provisioning that meets no failure, as the
    embedding records them. *)
Lemma create_user_live_calls :
  forall (request : UserRequest.t) (s : State),
    accepts_all respond ->
    UserRequest.validate request = true ->
    demo_mode (self s) = false ->
    exists password s',
      create_user respond entropy request s = (inr (Some (provisioned request)), s')
      /\ String.length password = PASSWORD_LENGTH
      /\ calls (world s')
         = (calls (world s) ++ provisioning_calls request password)%list
      /\ provisioned_users (self s')
         = (provisioned_users (self s) ++ [provisioned request])%list
      /\ sleeps (world s') = sleeps (world s).
Proof.
  intros request s Hall Hvalid Hlive.
  set (s1 := issued (firstn 1 (provisioning_calls request "")) s).
  set (s2 := issued (map (iam_add_user_to_group (UserRequest.username request))
                         (target_groups request)) s1).
  set (s3 := issued (map (iam_attach_user_policy (UserRequest.username request))
                         (role_policies request)) s2).
  destruct (generate_password_only_draws s3)
    as [pw [s4 [Hpw [Hlen [Hself [Hcalls Hsleeps]]]]]].
  assert (Hlive4 : demo_mode (self s4) = false) by (rewrite Hself; exact Hlive).
  assert (H2 : _assign_groups respond request s1 = (inr (target_groups request), s2)).
  { unfold s2. unfold _assign_groups, target_groups.
    destruct (Py.dict_get DEPARTMENT_GROUPS (UserRequest.department request));
      rewrite (assign_loop_accepted request Hall) by (cbn; (assumption || lia));
      reflexivity. }
  assert (H3 : _attach_policies respond request s2 = (inr (role_policies request), s3)).
  { unfold s3. unfold _attach_policies, role_policies.
    destruct (Py.dict_get ROLE_POLICIES (UserRequest.role request)).
    - unfold bind. rewrite (attach_loop_accepted request Hall) by exact Hlive.
      reflexivity.
    - cbn [Py.get_or map]. now rewrite issued_nil. }
  exists pw. eexists. split.
  - apply create_user_of_body. unfold create_user_body. rewrite Hvalid. cbn [negb].
    unfold try_step.
    rewrite create_iam_user_accepted by assumption. fold s1.
    rewrite H2, H3, Hpw.
    unfold _set_login_profile, _store_credentials, _send_notification, bind, get_self,
      try_step.
    rewrite Hlive4. rewrite api_accepted by exact Hall. cbn [issued self demo_mode].
    rewrite Hlive4. rewrite api_accepted by exact Hall. cbn [issued self demo_mode].
    unfold ret at 1. cbn [issued self demo_mode].
    rewrite Hlive4. rewrite api_accepted by exact Hall.
    unfold provisioned_users_append, ret. reflexivity.
  - split; [exact Hlen|]. cbn. rewrite Hcalls, Hsleeps, Hself. cbn.
    repeat split. rewrite <- !app_assoc. reflexivity.
Qed.

(** X15. Against a backend that accepts every call, a valid request in
    live mode is provisioned with the same result as in demo mode, and the
    operations issued are, in order: the creation of the user, one group
    membership per target group, one attachment per policy of the role, the
    login profile with the generated password of sixteen characters and a
    forced reset, the creation of the secret, whose document holds that
    password, and the notification.  Nothing is slept, and the result is
    recorded. *)
Theorem create_user_live_succeeds :
  forall (request : UserRequest.t) (s : State),
    accepts_all respond ->
    UserRequest.validate request = true ->
    demo_mode (self s) = false ->
    exists password new s',
      create_user respond entropy request s = (inr (Some (provisioned request)), s')
      /\ String.length password = PASSWORD_LENGTH
      /\ calls (world s') = (calls (world s) ++ new)%list
      /\ map operation new = provisioning_operations request password
      /\ provisioned_users (self s')
         = (provisioned_users (self s) ++ [provisioned request])%list
      /\ sleeps (world s') = sleeps (world s).
Proof.
  intros request s Hall Hvalid Hlive.
  destruct (create_user_live_calls request s Hall Hvalid Hlive)
    as [password [s' [Hrun [Hlen [Hcalls [Hrecorded Hsleeps]]]]]].
  exists password, (provisioning_calls request password), s'.
  repeat match goal with |- _ /\ _ => split end; try assumption.
  unfold provisioning_calls, provisioning_operations.
  rewrite !map_app, !map_map. reflexivity.
Qed.

(** *** Secret persistence *)

(** X16. In live mode [_store_credentials] first creates the secret; when
    that call is refused with ResourceExistsException it stores the same
    document with [put_secret_value] instead, and returns the locator as if
    the secret had been created (or raises what the update raises); any
    other refusal of the creation is raised as it is, with no update tried. *)
Theorem store_credentials_updates_existing :
  forall (request : UserRequest.t) (password : string) (s : State),
    demo_mode (self s) = false ->
    let create := create_secret_call request password in
    let put := put_secret_call request password in
    let run := _store_credentials respond request password s in
    (respond (calls (world s)) create = None ->
     run = (inr (secret_locator request), issued [create] s))
    /\ (forall message text,
          respond (calls (world s)) create
          = Some (ClientError "ResourceExistsException" message text) ->
          (respond (calls (world s) ++ [create])%list put = None ->
           run = (inr (secret_locator request), issued [create; put] s))
          /\ (forall e,
                respond (calls (world s) ++ [create])%list put = Some e ->
                run = (inl e, issued [create; put] s)))
    /\ (forall e,
          respond (calls (world s)) create = Some e ->
          isinstance_ClientError e = false
          \/ error_code e <> "ResourceExistsException" ->
          run = (inl e, issued [create] s)).
Proof.
  intros request password s Hlive create put run.
  unfold run, create, put, create_secret_call, put_secret_call, secret_name,
    credentials_data, secret_locator, _store_credentials, bind, get_self, try_step.
  rewrite Hlive. rewrite api_issued. split; [|split].
  - intros ->. reflexivity.
  - intros message text ->.
    cbn [isinstance_ClientError error_code]. rewrite String.eqb_refl.
    unfold bind. rewrite api_issued, issued_app. cbn [issued calls world app]. split.
    + intros ->. reflexivity.
    + intros e ->. reflexivity.
  - intros e -> Hother.
    destruct (isinstance_ClientError e) eqn:Hc.
    + destruct Hother as [Hother|Hother]; [discriminate|].
      apply String.eqb_neq in Hother. rewrite Hother. reflexivity.
    + reflexivity.
Qed.

(** *** Policy attachment *)

Lemma attach_loop_stops (request : UserRequest.t) (refused : string)
    (after : list string) (e : Exception) :
  (forall history,
     respond history (iam_attach_user_policy (UserRequest.username request) refused)
     = Some e) ->
  forall (before : list string) (s : State),
    demo_mode (self s) = false ->
    (forall history arn,
       In arn before ->
       respond history (iam_attach_user_policy (UserRequest.username request) arn)
       = None) ->
    attach_loop respond request (before ++ refused :: after) s
    = (inl e,
       issued (map (iam_attach_user_policy (UserRequest.username request))
                   (before ++ [refused])) s).
Proof.
  intros Hrefused. induction before as [|p rest IH]; intros s Hlive Hok;
    cbn [app attach_loop]; unfold bind, get_self; rewrite Hlive.
  - rewrite api_issued. now rewrite Hrefused.
  - rewrite api_issued, (Hok _ p) by now left.
    rewrite IH; [|exact Hlive|intros h arn Hin; apply Hok; now right].
    now rewrite issued_app.
Qed.

(** Every role of the table has exactly one policy. *)
Lemma role_policies_singleton (role : string) (policies : list string) :
  Py.dict_get ROLE_POLICIES role = Some policies -> exists arn, policies = [arn].
Proof.
  unfold ROLE_POLICIES. cbn [Py.dict_get].
  repeat match goal with
         | |- context [String.eqb role ?k] => destruct (String.eqb role k)
         end;
    intros [= <-]; eexists; reflexivity.
Qed.

(** X17. [_attach_policies] returns an empty list, issues no call and
    raises nothing for a role that has no entry in the role table, in either
    mode.  Every role of the table has exactly one policy; in live mode that
    policy is attached with one call, the list holding it is returned when
    the backend accepts the call, and the backend's refusal is raised
    otherwise.  The loop itself, on any list of policies, attaches them in
    order and stops at the first one the backend refuses, raising that
    refusal without trying the policies after it. *)
Theorem attach_policies_outcomes :
  forall (request : UserRequest.t) (s : State),
    let attach := iam_attach_user_policy (UserRequest.username request) in
    (Py.dict_get ROLE_POLICIES (UserRequest.role request) = None ->
     _attach_policies respond request s = (inr [], s))
    /\ (forall policies,
          Py.dict_get ROLE_POLICIES (UserRequest.role request) = Some policies ->
          demo_mode (self s) = false ->
          exists arn,
            policies = [arn]
            /\ (respond (calls (world s)) (attach arn) = None ->
                _attach_policies respond request s
                = (inr [arn], issued [attach arn] s))
            /\ (forall e,
                  respond (calls (world s)) (attach arn) = Some e ->
                  _attach_policies respond request s
                  = (inl e, issued [attach arn] s)))
    /\ (forall before refused after e,
          demo_mode (self s) = false ->
          (forall history, respond history (attach refused) = Some e) ->
          (forall history arn,
             In arn before -> respond history (attach arn) = None) ->
          attach_loop respond request (before ++ refused :: after) s
          = (inl e, issued (map attach (before ++ [refused])) s)).
Proof.
  intros request s attach. unfold attach. split; [|split].
  - unfold _attach_policies. intros ->. reflexivity.
  - intros policies Htable Hlive.
    destruct (role_policies_singleton _ _ Htable) as [arn ->].
    exists arn. split; [reflexivity|].
    unfold _attach_policies. rewrite Htable. cbn [attach_loop].
    unfold bind, get_self. rewrite Hlive. rewrite api_issued. split.
    + intros ->. unfold ret. reflexivity.
    + intros e ->. reflexivity.
  - intros before refused after e Hlive Hrefused Hok.
    exact (attach_loop_stops request refused after e Hrefused before s Hlive Hok).
Qed.

(** *** Failure messages *)

(** X18. Every exception caught by [create_user] becomes a failure result
    with the lists handed to the handlers and no credential locator, and the
    state is left as it is.  The message is the fixed text of the error code
    for the five known codes of a [ClientError] and the exception's own text
    for any other code; the text prefixed with [AWS connection error: ] for
    a [BotoCoreError], and so for a [ParamValidationError], which is one: the
    clause for parameter validation is never reached; and the text prefixed
    with [Unexpected error: ] for anything else. *)
Theorem except_clauses_messages :
  forall (request : UserRequest.t) (groups policies : list string) (e : Exception)
         (s : State),
    exists text,
      except_clauses request groups policies e s
      = (inr (ProvisioningResult.make (UserRequest.username request) false text
                groups policies None), s)
      /\ (forall m t, e = ClientError "EntityAlreadyExists" m t ->
            text = "User " ++ UserRequest.username request ++ " already exists")
      /\ (forall m t, e = ClientError "LimitExceeded" m t ->
            text = "IAM user limit reached - contact AWS support")
      /\ (forall m t, e = ClientError "MalformedPolicyDocument" m t ->
            text = "Invalid policy document")
      /\ (forall m t, e = ClientError "NoSuchEntity" m t ->
            text = "Referenced resource not found")
      /\ (forall m t, e = ClientError "InvalidInput" m t ->
            text = "Invalid input: " ++ m)
      /\ (forall code m t,
            e = ClientError code m t ->
            ~ In code ["EntityAlreadyExists"; "LimitExceeded";
                       "MalformedPolicyDocument"; "NoSuchEntity"; "InvalidInput"] ->
            text = t)
      /\ (forall t, e = BotoCoreError t \/ e = ParamValidationError t ->
            text = "AWS connection error: " ++ t)
      /\ (forall cls t, e = PyException cls t -> text = "Unexpected error: " ++ t).
Proof.
  intros request groups policies e s.
  destruct e as [code m t|t|t|cls t]; cbn [except_clauses isinstance_ClientError
    isinstance_BotoCoreError isinstance_ParamValidationError]; unfold ret;
    eexists; (split; [reflexivity|]);
    repeat match goal with |- _ /\ _ => split end;
    try (intros; discriminate);
    try (intros ? ? [= -> -> ->]; reflexivity);
    try (intros ? [[= ->]|[= ->]]; reflexivity);
    try (intros ? ? [= -> ->]; reflexivity).
  intros code' m' t' [= <- <- <-] Hnot. unfold client_error_message.
  cbn [error_code str_e].
  repeat match goal with
         | |- context [String.eqb code ?c] =>
             destruct (String.eqb_spec code c) as [->|_];
             [exfalso; apply Hnot; cbn; tauto|]
         end.
  reflexivity.
Qed.


(** *** The retry wrapper, for any bound *)



(** *** Bulk provisioning *)

Lemma keeps_sleeps_trans (s1 s2 s3 : State) :
  keeps_sleeps s1 s2 -> keeps_sleeps s2 s3 -> keeps_sleeps s1 s3.
Proof. unfold keeps_sleeps. congruence. Qed.

Lemma keeps_sleeps_api (c : ApiCall) (s : State) :
  keeps_sleeps s (snd (api respond c s)).
Proof. unfold keeps_sleeps, api. destruct (respond (calls (world s)) c); reflexivity. Qed.

Lemma keeps_sleeps_choice (seq : string) (s : State) :
  keeps_sleeps s (snd (choice entropy seq s)).
Proof.
  unfold keeps_sleeps, choice.
  destruct (String.get (entropy (draws (world s)) mod String.length seq)%nat seq);
    reflexivity.
Qed.

Lemma create_user_outcome (request : UserRequest.t) (s : State) :
  exists r s',
    create_user respond entropy request s = (inr (Some r), s')
    /\ ProvisioningResult.username r = UserRequest.username request
    /\ sleeps (world s') = sleeps (world s).
Proof.
  destruct (create_user_body_returns respond entropy request s) as [r Hr].
  exists r, (snd (create_user_body respond entropy request s)).
  split; [now apply create_user_of_body|]. split.
  - revert Hr. generalize (snd (create_user_body respond entropy request s)).
    intros s' Hr. unfold create_user_body in Hr.
    destruct (negb (UserRequest.validate request)); [now injection Hr as <- _|].
    unfold try_step in Hr.
    repeat match type of Hr with
           | (let (_, _) := ?c in _) = _ =>
               let e := fresh "e" in
               let st := fresh "st" in
               destruct c as [[e|?] st];
               [ match type of Hr with
                 | except_clauses ?q ?g ?p e st = _ =>
                     destruct (except_clauses_failed q g p e st) as [m Hm];
                     rewrite Hm in Hr; now injection Hr as <- _
                 end | ]
           end.
    unfold bind, provisioned_users_append, ret in Hr. now injection Hr as <- _.
  - apply (pres_create_user_body respond entropy keeps_sleeps (fun s => eq_refl)
             keeps_sleeps_trans keeps_sleeps_api keeps_sleeps_choice).
    intros r' s0. reflexivity.
Qed.

Lemma provision_rows_outcome :
  forall (rows : list Row) (results : list (option ProvisioningResult.t)) (s : State),
    exists added s',
      provision_rows respond entropy rows results s = (inr (results ++ added)%list, s')
      /\ map (option_map ProvisioningResult.username) added
         = map (fun row => Some (UserRequest.username (request_of_row row))) rows
      /\ sleeps (world s')
         = (sleeps (world s) ++ repeat (1 # 10)%Q (List.length rows))%list.
Proof.
  induction rows as [|row rest IH]; intros results s; cbn [provision_rows].
  - exists [], s. cbn. now rewrite !app_nil_r.
  - destruct (create_user_outcome (request_of_row row) s) as [r [s1 [Hr [Hname Hsl]]]].
    unfold bind at 1. rewrite Hr. unfold bind at 1. unfold sleep at 1.
    match goal with
    | |- context [provision_rows respond entropy rest ?acc ?st] =>
        destruct (IH acc st) as [added [s' [Hrest [Hnames Hsleeps]]]]
    end.
    exists (Some r :: added)%list, s'. rewrite Hrest. split; [|split].
    + now rewrite <- app_assoc.
    + cbn [map option_map]. now rewrite Hname, Hnames.
    + rewrite Hsleeps. cbn [world sleeps List.length repeat]. rewrite Hsl.
      now rewrite <- app_assoc.
Qed.

(** X20. [provision_from_csv] never raises and never stops early: whatever
    the backend answers, it returns exactly one result per row, in the order
    of the rows, each for the username of its row, and it pauses a tenth of
    a second after every row and at no other moment. *)
Theorem provision_from_csv_one_result_per_row :
  forall (rows : list Row) (s : State),
    exists results s',
      provision_from_csv respond entropy rows s = (inr results, s')
      /\ map (option_map ProvisioningResult.username) results
         = map (fun row => Some (UserRequest.username (request_of_row row))) rows
      /\ List.length results = List.length rows
      /\ sleeps (world s')
         = (sleeps (world s) ++ repeat (1 # 10)%Q (List.length rows))%list.
Proof.
  intros rows s. unfold provision_from_csv.
  destruct (provision_rows_outcome rows [] s) as [added [s' [H [Hnames Hsleeps]]]].
  exists added, s'. cbn [app] in H. repeat split; try assumption.
  rewrite <- (length_map (option_map ProvisioningResult.username)), Hnames.
  apply length_map.
Qed.

(** X21. A row that lacks the username, the email or the department
    column, under both spellings, is refused by validation: [create_user] on
    its request returns the "Validation failed" result and changes nothing.
    A row that lacks the role column gets the role Employee. *)
Theorem row_with_missing_column :
  forall (row : Row) (s : State),
    (column_missing row "username" "Username"
     \/ column_missing row "email" "Email"
     \/ column_missing row "department" "Department" ->
     create_user respond entropy (request_of_row row) s
     = (inr (Some (ProvisioningResult.make
                     (UserRequest.username (request_of_row row)) false
                     "Validation failed" [] [] None)), s))
    /\ (column_missing row "role" "Role" ->
        UserRequest.role (request_of_row row) = "Employee").
Proof.
  intros row s. split.
  - intros Hmissing. apply create_user_of_body. unfold create_user_body.
    replace (UserRequest.validate (request_of_row row)) with false; [reflexivity|].
    unfold UserRequest.validate, request_of_row, column_missing in *.
    cbn [UserRequest.username UserRequest.email UserRequest.department
         UserRequest.role].
    destruct Hmissing as [[-> ->]|[[-> ->]|[-> ->]]]; cbn [Py.get_or Py.truthy Py.all forallb andb negb];
      rewrite ?andb_false_r; reflexivity.
  - intros [H1 H2]. unfold request_of_row. cbn [UserRequest.role].
    now rewrite H1, H2.
Qed.

(** *** The summary *)

Lemma filter_split_length {A : Type} (f : A -> bool) (l : list A) :
  (List.length (filter f l) + List.length (filter (fun x => negb (f x)) l))%nat
  = List.length l.
Proof.
  induction l as [|x l IH]; [reflexivity|]. cbn [filter].
  destruct (f x); cbn; lia.
Qed.

(** X22. In every summary the processed results split into successes and
    failures: [total_processed = successful + failed]; [users_provisioned]
    has one name per success and [users_failed] one entry per failure; and
    the success rate of a provisioner that recorded nothing is 0.0, the
    denominator being [max(total, 1)]. *)
Theorem get_summary_counts :
  forall a : IAMProvisioner,
    total_processed (get_summary a)
    = (successful (get_summary a) + failed (get_summary a))%nat
    /\ List.length (users_provisioned (get_summary a)) = successful (get_summary a)
    /\ List.length (users_failed (get_summary a)) = failed (get_summary a)
    /\ (provisioned_users a = [] -> success_rate (get_summary a) = 0%float).
Proof.
  intros a. unfold get_summary.
  cbn [total_processed successful failed users_provisioned users_failed success_rate].
  split; [symmetry; apply filter_split_length|].
  split; [apply length_map|]. split; [apply length_map|].
  intros ->. reflexivity.
Qed.


(** *** Group assignment: what is returned *)

Lemma list_remove_incl (x : string) (xs : list string) :
  incl (list_remove x xs) xs.
Proof.
  induction xs as [|y rest IH]; cbn [list_remove]; [apply incl_refl|].
  destruct (String.eqb y x).
  - apply incl_tl, incl_refl.
  - intros z [<-|Hz]; [now left | right; now apply IH].
Qed.

Lemma assign_loop_returns_sublist (request : UserRequest.t) :
  forall (fuel i : nat) (groups : list string) (s : State) out s',
    assign_loop respond fuel request i groups s = (inr out, s') ->
    incl out groups /\ (List.length out <= List.length groups)%nat.
Proof.
  induction fuel as [|fuel IH]; intros i groups s out s' H; cbn [assign_loop] in H.
  - injection H as <- _. split; [apply incl_refl | lia].
  - destruct (nth_error groups i) as [group|];
      [|injection H as <- _; split; [apply incl_refl | lia]].
    unfold bind, get_self, try_step in H.
    destruct (demo_mode (self s)); [now apply IH in H|].
    destruct (api respond (iam_add_user_to_group (UserRequest.username request) group) s)
      as [[e|u] s1]; [|now apply IH in H].
    destruct (isinstance_ClientError e); [|discriminate].
    destruct (String.eqb (error_code e) "NoSuchEntity"); [|discriminate].
    apply IH in H. destruct H as [Hincl Hlen]. split.
    + intros z Hz. apply (list_remove_incl group groups), Hincl, Hz.
    + pose proof (list_remove_length group groups). lia.
Qed.

(** X23. Whatever the backend answers, when [_assign_groups] returns, every
    group it returns is one of the target groups of the request (the default
    group or a group of the department) and it returns no more groups than
    there are targets; and in live mode a refusal of the first membership
    that is not a NoSuchEntity error is raised at once, after that single
    call. *)
Theorem assign_groups_returns_targets :
  forall (request : UserRequest.t) (s : State),
    (forall groups s',
       _assign_groups respond request s = (inr groups, s') ->
       incl groups (target_groups request)
       /\ (List.length groups <= List.length (target_groups request))%nat)
    /\ (forall e,
          demo_mode (self s) = false ->
          respond (calls (world s))
            (iam_add_user_to_group (UserRequest.username request) DEFAULT_GROUP)
          = Some e ->
          isinstance_ClientError e = false \/ error_code e <> "NoSuchEntity" ->
          _assign_groups respond request s
          = (inl e,
             issued [iam_add_user_to_group (UserRequest.username request)
                       DEFAULT_GROUP] s)).
Proof.
  intros request s. split.
  - intros groups s' H. unfold _assign_groups in H.
    replace (target_groups request)
      with (match Py.dict_get DEPARTMENT_GROUPS (UserRequest.department request) with
            | Some dept_groups => ([DEFAULT_GROUP] ++ dept_groups)%list
            | None => [DEFAULT_GROUP]
            end)
      by (unfold target_groups;
          now destruct (Py.dict_get DEPARTMENT_GROUPS (UserRequest.department request))).
    now apply assign_loop_returns_sublist in H.
  - intros e Hlive He Hother. unfold _assign_groups.
    assert (Hstep : forall fuel rest,
               assign_loop respond (S fuel) request 0 (DEFAULT_GROUP :: rest) s
               = (inl e,
                  issued [iam_add_user_to_group (UserRequest.username request)
                            DEFAULT_GROUP] s)).
    { intros fuel rest. cbn [assign_loop nth_error].
      unfold bind, get_self, try_step. rewrite Hlive, api_issued, He.
      destruct (isinstance_ClientError e) eqn:Hc; [|reflexivity].
      destruct Hother as [Hother|Hother]; [discriminate|].
      apply String.eqb_neq in Hother. now rewrite Hother. }
    destruct (Py.dict_get DEPARTMENT_GROUPS (UserRequest.department request));
      cbn [app List.length]; apply Hstep.
Qed.

(** *** Password generation: the characters used *)

Lemma list_ascii_of_string_app (a b : string) :
  list_ascii_of_string (a ++ b)
  = (list_ascii_of_string a ++ list_ascii_of_string b)%list.
Proof. induction a as [|c a IH]; cbn; [reflexivity | now rewrite IH]. Qed.

Lemma get_in (s : string) :
  forall i c, String.get i s = Some c -> In c (list_ascii_of_string s).
Proof.
  induction s as [|x s IH]; intros [|i] c H; cbn in *; try discriminate.
  - injection H as ->. now left.
  - right. now apply (IH i).
Qed.

Lemma slice_from_in (n : nat) :
  forall (s : string) c,
    In c (list_ascii_of_string (slice_from n s)) -> In c (list_ascii_of_string s).
Proof.
  induction n as [|n IH]; intros [|x s] c H; cbn in *; try assumption.
  right. now apply IH.
Qed.

Lemma slice_to_in (n : nat) :
  forall (s : string) c,
    In c (list_ascii_of_string (slice_to n s)) -> In c (list_ascii_of_string s).
Proof.
  induction n as [|n IH]; intros [|x s] c H; cbn in *; try contradiction.
  destruct H as [H|H]; [now left | right; now apply IH].
Qed.

Lemma subalphabet_allowed (seq : string) :
  forallb allowed (list_ascii_of_string seq) = true ->
  forall i c, String.get i seq = Some c -> allowed c = true.
Proof.
  intros Hall i c H. rewrite forallb_forall in Hall. apply Hall.
  now apply (get_in seq i).
Qed.

Lemma choice_allowed (seq : string) (s : State) :
  seq <> "" -> forallb allowed (list_ascii_of_string seq) = true ->
  exists c s', choice entropy seq s = (inr c, s') /\ allowed c = true.
Proof.
  intros Hne Hall. destruct (choice_returns entropy seq s Hne) as [c [Hget Hc]].
  exists c. eexists. split; [exact Hc|]. now apply (subalphabet_allowed seq Hall) in Hget.
Qed.

Lemma join_choices_allowed :
  forall (n : nat) (s : State),
    exists p s',
      join_choices entropy n password_alphabet s = (inr p, s')
      /\ String.length p = n
      /\ Forall (fun c => allowed c = true) (list_ascii_of_string p).
Proof.
  induction n as [|n IH]; intros s; cbn [join_choices].
  - exists "", s. repeat split. constructor.
  - unfold bind.
    destruct (choice_allowed password_alphabet s ltac:(discriminate) ltac:(reflexivity))
      as [c [s1 [-> Hc]]].
    destruct (IH s1) as [p [s' [-> [Hlen Hall]]]].
    exists (String c p), s'. repeat split; [cbn; now rewrite Hlen|].
    cbn. now constructor.
Qed.

(** X24. Every character of a generated password is a letter, a digit or
    one of the eight symbols [!@#$%^&*]: the patches only write letters and
    digits, and the rest is what was drawn from the alphabet. *)
Theorem generate_password_alphabet :
  forall s : State,
    exists password s',
      _generate_password entropy s = (inr password, s')
      /\ Forall (fun c => allowed c = true) (list_ascii_of_string password).
Proof.
  intros s. unfold _generate_password. fold password_alphabet.
  destruct (join_choices_allowed PASSWORD_LENGTH s) as [p0 [s0 [H0 [L0 A0]]]].
  unfold bind at 1. rewrite H0.
  assert (H1 : exists p1 s1,
             (if negb (Py.any isupper p0)
              then c <- choice entropy ascii_uppercase ;;
                   ret (str_of_char c ++ slice_from 1 p0)
              else ret p0) s0 = (inr p1, s1)
             /\ String.length p1 = PASSWORD_LENGTH
             /\ Forall (fun c => allowed c = true) (list_ascii_of_string p1)).
  { destruct (negb (Py.any isupper p0)).
    - unfold bind.
      destruct (choice_allowed ascii_uppercase s0 ltac:(discriminate) ltac:(reflexivity))
        as [c [s1 [-> Hc]]].
      eexists. eexists. split; [reflexivity|]. split.
      + rewrite append_length, slice_from_length, L0. reflexivity.
      + rewrite list_ascii_of_string_app. apply Forall_app. split.
        * cbn. constructor; [exact Hc | constructor].
        * rewrite Forall_forall in *. intros x Hx. apply A0.
          now apply (slice_from_in 1).
    - exists p0, s0. repeat split; assumption. }
  destruct H1 as [p1 [s1 [H1 [L1 A1]]]]. unfold bind at 1. rewrite H1.
  assert (H2 : exists p2 s2,
             (if negb (Py.any islower p1)
              then c0 <- index p1 0 ;;
                   c <- choice entropy ascii_lowercase ;;
                   ret (str_of_char c0 ++ str_of_char c ++ slice_from 2 p1)
              else ret p1) s1 = (inr p2, s2)
             /\ String.length p2 = PASSWORD_LENGTH
             /\ Forall (fun c => allowed c = true) (list_ascii_of_string p2)).
  { destruct (negb (Py.any islower p1)).
    - unfold bind, index.
      destruct (get_in_range p1 0) as [c0 Hc0];
        [rewrite L1; unfold PASSWORD_LENGTH; lia|].
      rewrite Hc0. unfold ret at 1.
      destruct (choice_allowed ascii_lowercase s1 ltac:(discriminate) ltac:(reflexivity))
        as [c [s2 [-> Hc]]].
      eexists. eexists. split; [reflexivity|]. split.
      + rewrite !append_length, slice_from_length, L1. reflexivity.
      + rewrite !list_ascii_of_string_app. rewrite Forall_forall in A1.
        apply Forall_app. split; [|apply Forall_app; split].
        * cbn. constructor; [|constructor]. apply A1. now apply (get_in p1 0).
        * cbn. constructor; [exact Hc | constructor].
        * rewrite Forall_forall. intros x Hx. apply A1. now apply (slice_from_in 2).
    - exists p1, s1. repeat split; assumption. }
  destruct H2 as [p2 [s2 [H2 [L2 A2]]]]. unfold bind at 1. rewrite H2.
  unfold bind at 1.
  destruct (Py.any isdigit p2); cbn [negb].
  - exists p2, s2. unfold ret. split; [reflexivity | assumption].
  - unfold bind.
    destruct (choice_allowed digits s2 ltac:(discriminate) ltac:(reflexivity))
      as [c [s3 [-> Hc]]].
    eexists. eexists. split; [reflexivity|].
    rewrite !list_ascii_of_string_app. rewrite Forall_forall in A2.
    apply Forall_app. split; [|apply Forall_app; split].
    + rewrite Forall_forall. intros x Hx. apply A2. now apply (slice_to_in 2).
    + cbn. constructor; [exact Hc | constructor].
    + rewrite Forall_forall. intros x Hx. apply A2. now apply (slice_from_in 3).
Qed.

(** *** Partial progress *)

















End ProvisionerFurther.

(** * Evaluations of the further properties *)

Section FurtherEvaluations.

Import Provisioner ProvisionerSpec.

(** X13, on the Engineering developer of the test suite. *)
Lemma create_user_demo_succeeds_example :
  UserRequest.validate jsmith = true
  /\ demo_mode (self (fresh true)) = true
  /\ exists s',
       create_user backend_missing_groups entropy_id jsmith (fresh true)
       = (inr (Some (ProvisioningResult.make "jsmith" true
                       "User provisioned successfully"
                       ["StandardUsers"; "Engineering-Users"; "Developer-Tools";
                        "S3-Dev-Access"]
                       ["arn:aws:iam::aws:policy/PowerUserAccess"]
                       (Some "secretsmanager:iam-credentials/Engineering/jsmith"))),
          s')
       /\ calls (world s') = [].
Proof.
  split; [reflexivity|]. split; [reflexivity|].
  destruct (create_user_demo_succeeds backend_missing_groups entropy_id jsmith
              (fresh true) eq_refl eq_refl) as [s' [Hrun [_ [Hcalls _]]]].
  exists s'. split; [exact Hrun | exact Hcalls].
Defined.

(** X14, on the invalid request and a backend that would throttle. *)
Lemma create_user_demo_calls_nothing_example :
  demo_mode (self (fresh true)) = true
  /\ calls (world (snd (create_user backend_always_throttles entropy_id bwilliams
                          (fresh true)))) = [].
Proof.
  split; [reflexivity|].
  apply (create_user_demo_calls_nothing backend_always_throttles entropy_id bwilliams
           (fresh true) eq_refl).
Defined.

(** X15, on the Engineering developer: nine operations in live mode. *)
Lemma create_user_live_succeeds_example :
  accepts_all backend_ok
  /\ UserRequest.validate jsmith = true
  /\ demo_mode (self (fresh false)) = false
  /\ exists password s',
       create_user backend_ok entropy_id jsmith (fresh false)
       = (inr (Some (provisioned jsmith)), s')
       /\ map operation (calls (world s'))
          = [ CreateUser "jsmith";
              AddUserToGroup "jsmith" "StandardUsers";
              AddUserToGroup "jsmith" "Engineering-Users";
              AddUserToGroup "jsmith" "Developer-Tools";
              AddUserToGroup "jsmith" "S3-Dev-Access";
              AttachUserPolicy "jsmith" "arn:aws:iam::aws:policy/PowerUserAccess";
              CreateLoginProfile "jsmith" password true;
              CreateSecret "iam-credentials/Engineering/jsmith" (Some (JStr password));
              Publish SNS_TOPIC_ARN "IAM User Provisioned: jsmith" ]
       /\ String.length password = 16%nat.
Proof.
  split; [intros h c; reflexivity|]. split; [reflexivity|]. split; [reflexivity|].
  destruct (create_user_live_succeeds backend_ok entropy_id jsmith (fresh false)
              (fun h c => eq_refl) eq_refl eq_refl)
    as [password [new [s' [Hrun [Hlen [Hcalls [Hops _]]]]]]].
  exists password, s'. split; [exact Hrun|]. split; [|exact Hlen].
  rewrite Hcalls. cbn [fresh world calls empty_world app]. rewrite Hops. reflexivity.
Defined.

(** X16, when the secret of the request exists already. *)
Lemma store_credentials_updates_existing_example :
  demo_mode (self (fresh false)) = false
  /\ _store_credentials backend_secret_exists jsmith "Qb7defghijklmnop" (fresh false)
     = (inr "secretsmanager:iam-credentials/Engineering/jsmith",
        issued [create_secret_call jsmith "Qb7defghijklmnop";
                put_secret_call jsmith "Qb7defghijklmnop"] (fresh false)).
Proof.
  split; [reflexivity|].
  destruct (store_credentials_updates_existing backend_secret_exists jsmith
              "Qb7defghijklmnop" (fresh false) eq_refl) as [_ [Hexists _]].
  destruct (Hexists _ _ eq_refl) as [Hput _].
  exact (Hput eq_refl).
Defined.

(** X17, on a list of three policies of which the backend refuses the
    second: the third is never tried. *)
Lemma attach_policies_outcomes_example :
  attach_loop (backend_refuses_policy "arn:B") jsmith ["arn:A"; "arn:B"; "arn:C"]
    (fresh false)
  = (inl access_denied,
     issued [iam_attach_user_policy "jsmith" "arn:A";
             iam_attach_user_policy "jsmith" "arn:B"] (fresh false)).
Proof.
  destruct (attach_policies_outcomes (backend_refuses_policy "arn:B") jsmith
              (fresh false)) as [_ [_ Hloop]].
  apply (Hloop ["arn:A"] "arn:B" ["arn:C"] access_denied eq_refl
           (fun history => eq_refl)).
  intros history arn [<-|[]]. reflexivity.
Defined.




End FurtherEvaluations.
